(** * pkl downloader: a shallow embedding of [cli/pkg/pkl/downloader.go]

    The Go package provisions the [pkl] binary: it asks the GitHub release
    index for the latest tag, maps the host platform to a release artifact,
    downloads it and installs it with executable permissions.

    The embedding follows the source function by function.  The three
    injected capabilities of [PklDownloader] (HTTP client, filesystem,
    runtime) are modelled as the interfaces they are in the source; every
    call that crosses one of them is recorded in a trace, so that
    statements such as "the transport is never invoked" can be read off a
    run. *)

From Stdlib Require Import ZArith NArith Lia Ascii String.
From stdpp Require Import base tactics option list strings pretty gmap.

Set Warnings "-register-all,-clear-no-such-hyp".

Local Open Scope Z_scope.

(** [[]byte]: the bodies of HTTP responses and the contents of files. *)
Abbreviation bytes := (list Byte.byte).

(** * encoding/json, as far as [json.Unmarshal] into
      [struct { TagName string `json:"tag_name"` }] goes

    [getLatestPklVersion] hands the response body to [json.Unmarshal].  What
    the version lookup accepts is decided there, so the decoder is modelled
    after the library: the byte-by-byte scanner of [scanner.go] (same state
    functions, same parse-state stack, same depth bound), extended to build
    the value it has recognised, and the struct decoding of [decode.go]
    restricted to the one-field target of the source. *)
Module json.

Local Open Scope char_scope.

(** A JSON value as the scanner delimits it.  String literals (values and
    object keys) are kept as written between their quotes; [unquote]
    decodes them where the decoder needs their contents. *)
Inductive value : Type :=
  | Null
  | Bool (b : bool)
  | Number (lit : string)
  | Str (lit : string)
  | Array (elems : list value)
  | Object (fields : list (string * value)).

(** [*json.SyntaxError] and [*json.UnmarshalTypeError].  The scanner's
    [s.error(c, context)] is [InvalidCharacter c context]; the message
    texts are those of the library and no statement depends on them. *)
Inductive Error : Type :=
  | UnexpectedEnd
  | InvalidCharacter (c : ascii) (context : string)
  | UnmarshalTypeError (Value : string) (Field : string).

(** The parse-state stack of the scanner; each entry also holds what has
    been read of the composite value it stands for. *)
Inductive parseState : Type :=
  | parseObjectKey (fields : list (string * value)) (key : option string)
  | parseObjectValue (fields : list (string * value)) (key : option string)
  | parseArrayValue (elems : list value).

Inductive stepFn : Type :=
  | stateBeginValueOrEmpty | stateBeginValue
  | stateBeginStringOrEmpty | stateBeginString
  | stateEndValue | stateEndTop
  | stateInString | stateInStringEsc
  | stateInStringEscU | stateInStringEscU1
  | stateInStringEscU12 | stateInStringEscU123
  | stateNeg | state1 | state0 | stateDot | stateDot0
  | stateE | stateESign | stateE0
  | stateT | stateTr | stateTru
  | stateF | stateFa | stateFal | stateFals
  | stateN | stateNu | stateNul.

Record scanner : Type := mkScanner {
  step : stepFn;
  endTop : bool;
  stack : list parseState;
  lit : string;             (* the literal being scanned *)
  top : option value        (* the completed top-level value *)
}.

Definition maxNestingDepth : N := 10000.

Definition isSpace (c : ascii) : bool :=
  (c =? " ") || (c =? "009") || (c =? "013") || (c =? "010").

Definition between (lo hi c : ascii) : bool :=
  ((N_of_ascii lo <=? N_of_ascii c) && (N_of_ascii c <=? N_of_ascii hi))%N.

Definition isDigit (c : ascii) : bool := between "0" "9" c.

Definition isHex (c : ascii) : bool :=
  between "0" "9" c || between "a" "f" c || between "A" "F" c.

Definition reset : scanner :=
  mkScanner stateBeginValue false [] "" None.

Definition setStep (f : stepFn) (s : scanner) : scanner :=
  mkScanner f (endTop s) (stack s) (lit s) (top s).

(** [scanBeginLiteral] and [scanContinue] inside a literal. *)
Definition beginLiteral (f : stepFn) (c : ascii) (s : scanner) : scanner :=
  mkScanner f (endTop s) (stack s) (String c "") (top s).

Definition continue (f : stepFn) (c : ascii) (s : scanner) : scanner :=
  mkScanner f (endTop s) (stack s) (lit s +:+ String c "") (top s).

(** A value is complete: it becomes the pending key, the value of the
    pending key, the next array element, or the top-level value. *)
Definition emit (v : value) (s : scanner) : scanner :=
  let stack' :=
    match stack s with
    | parseObjectKey fs _ :: ps =>
        match v with
        | Str k => parseObjectKey fs (Some k) :: ps
        | _ => stack s
        end
    | parseObjectValue fs (Some k) :: ps =>
        parseObjectValue (fs ++ [(k, v)]) None :: ps
    | parseArrayValue es :: ps => parseArrayValue (es ++ [v]) :: ps
    | ps => ps
    end in
  mkScanner stateEndValue (endTop s) stack' ""
    (match stack s with [] => Some v | _ => top s end).

Definition pushParseState (c : ascii) (p : parseState) (f : stepFn)
    (s : scanner) : Error + scanner :=
  if (N.of_nat (length (p :: stack s)) <=? maxNestingDepth)%N
  then inr (mkScanner f (endTop s) (p :: stack s) (lit s) (top s))
  else inl (InvalidCharacter c "exceeded max depth").

(** [popParseState], delivering the finished composite to its parent. *)
Definition popParseState (v : value) (s : scanner) : scanner :=
  let s' := emit v (mkScanner (step s) (endTop s) (tail (stack s)) "" (top s)) in
  match stack s' with
  | [] => mkScanner stateEndTop true [] "" (top s')
  | _ => setStep stateEndValue s'
  end.

Definition fnEndTop (s : scanner) (c : ascii) : Error + scanner :=
  if isSpace c then inr s
  else inl (InvalidCharacter c "after top-level value").

Definition fnEndValue (s : scanner) (c : ascii) : Error + scanner :=
  match stack s with
  | [] => fnEndTop (mkScanner stateEndTop true [] (lit s) (top s)) c
  | ps :: rest =>
      if isSpace c then inr (setStep stateEndValue s)
      else match ps with
      | parseObjectKey fs key =>
          if c =? ":" then
            inr (mkScanner stateBeginValue (endTop s)
                   (parseObjectValue fs key :: rest) (lit s) (top s))
          else inl (InvalidCharacter c "after object key")
      | parseObjectValue fs key =>
          if c =? "," then
            inr (mkScanner stateBeginString (endTop s)
                   (parseObjectKey fs None :: rest) (lit s) (top s))
          else if c =? "}" then inr (popParseState (Object fs) s)
          else inl (InvalidCharacter c "after object key:value pair")
      | parseArrayValue es =>
          if c =? "," then inr (setStep stateBeginValue s)
          else if c =? "]" then inr (popParseState (Array es) s)
          else inl (InvalidCharacter c "after array element")
      end
  end.

Definition fnBeginValue (s : scanner) (c : ascii) : Error + scanner :=
  if isSpace c then inr s
  else if c =? "{" then
    pushParseState c (parseObjectKey [] None) stateBeginStringOrEmpty s
  else if c =? "[" then
    pushParseState c (parseArrayValue []) stateBeginValueOrEmpty s
  else if c =? "034" then inr (beginLiteral stateInString c s)
  else if c =? "-" then inr (beginLiteral stateNeg c s)
  else if c =? "0" then inr (beginLiteral state0 c s)
  else if c =? "t" then inr (beginLiteral stateT c s)
  else if c =? "f" then inr (beginLiteral stateF c s)
  else if c =? "n" then inr (beginLiteral stateN c s)
  else if between "1" "9" c then inr (beginLiteral state1 c s)
  else inl (InvalidCharacter c "looking for beginning of value").

Definition fnBeginValueOrEmpty (s : scanner) (c : ascii) : Error + scanner :=
  if isSpace c then inr s
  else if c =? "]" then fnEndValue s c
  else fnBeginValue s c.

Definition fnBeginString (s : scanner) (c : ascii) : Error + scanner :=
  if isSpace c then inr s
  else if c =? "034" then inr (beginLiteral stateInString c s)
  else inl (InvalidCharacter c "looking for beginning of object key string").

Definition fnBeginStringOrEmpty (s : scanner) (c : ascii) : Error + scanner :=
  if isSpace c then inr s
  else if c =? "}" then
    match stack s with
    | parseObjectKey fs key :: rest =>
        fnEndValue (mkScanner (step s) (endTop s)
                      (parseObjectValue fs key :: rest) (lit s) (top s)) c
    | _ => fnEndValue s c
    end
  else fnBeginString s c.

(** The text between the quotes of the literal [lit], opening quote
    included in [lit]. *)
Definition contents (lit : string) : string :=
  match lit with
  | String _ rest => rest
  | EmptyString => EmptyString
  end.

Definition fnInString (s : scanner) (c : ascii) : Error + scanner :=
  if c =? "034" then inr (emit (Str (contents (lit s))) s)
  else if c =? "\" then inr (continue stateInStringEsc c s)
  else if (N_of_ascii c <? 32)%N then inl (InvalidCharacter c "in string literal")
  else inr (continue stateInString c s).

Definition fnInStringEsc (s : scanner) (c : ascii) : Error + scanner :=
  if (c =? "b") || (c =? "f") || (c =? "n") || (c =? "r") || (c =? "t")
     || (c =? "\") || (c =? "/") || (c =? "034")
  then inr (continue stateInString c s)
  else if c =? "u" then inr (continue stateInStringEscU c s)
  else inl (InvalidCharacter c "in string escape code").

Definition fnHex (next : stepFn) (s : scanner) (c : ascii) : Error + scanner :=
  if isHex c then inr (continue next c s)
  else inl (InvalidCharacter c "in \u hexadecimal character escape").

Definition fnNeg (s : scanner) (c : ascii) : Error + scanner :=
  if c =? "0" then inr (continue state0 c s)
  else if between "1" "9" c then inr (continue state1 c s)
  else inl (InvalidCharacter c "in numeric literal").

Definition endNumber (s : scanner) (c : ascii) : Error + scanner :=
  fnEndValue (emit (Number (lit s)) s) c.

Definition fnE0 (s : scanner) (c : ascii) : Error + scanner :=
  if isDigit c then inr (continue stateE0 c s) else endNumber s c.

Definition fnESign (s : scanner) (c : ascii) : Error + scanner :=
  if isDigit c then inr (continue stateE0 c s)
  else inl (InvalidCharacter c "in exponent of numeric literal").

Definition fnE (s : scanner) (c : ascii) : Error + scanner :=
  if (c =? "+") || (c =? "-") then inr (continue stateESign c s)
  else fnESign s c.

Definition fnDot0 (s : scanner) (c : ascii) : Error + scanner :=
  if isDigit c then inr (continue stateDot0 c s)
  else if (c =? "e") || (c =? "E") then inr (continue stateE c s)
  else endNumber s c.

Definition fnDot (s : scanner) (c : ascii) : Error + scanner :=
  if isDigit c then inr (continue stateDot0 c s)
  else inl (InvalidCharacter c "after decimal point in numeric literal").

Definition fn0 (s : scanner) (c : ascii) : Error + scanner :=
  if c =? "." then inr (continue stateDot c s)
  else if (c =? "e") || (c =? "E") then inr (continue stateE c s)
  else endNumber s c.

Definition fn1 (s : scanner) (c : ascii) : Error + scanner :=
  if isDigit c then inr (continue state1 c s) else fn0 s c.

(** One letter of [true], [false] or [null]. *)
Definition fnLetter (want : ascii) (context : string)
    (next : scanner → scanner) (s : scanner) (c : ascii) : Error + scanner :=
  if c =? want then inr (next s) else inl (InvalidCharacter c context).

(** [s.step(s, c)] *)
Definition stepScanner (s : scanner) (c : ascii) : Error + scanner :=
  match step s with
  | stateBeginValueOrEmpty => fnBeginValueOrEmpty s c
  | stateBeginValue => fnBeginValue s c
  | stateBeginStringOrEmpty => fnBeginStringOrEmpty s c
  | stateBeginString => fnBeginString s c
  | stateEndValue => fnEndValue s c
  | stateEndTop => fnEndTop s c
  | stateInString => fnInString s c
  | stateInStringEsc => fnInStringEsc s c
  | stateInStringEscU => fnHex stateInStringEscU1 s c
  | stateInStringEscU1 => fnHex stateInStringEscU12 s c
  | stateInStringEscU12 => fnHex stateInStringEscU123 s c
  | stateInStringEscU123 => fnHex stateInString s c
  | stateNeg => fnNeg s c
  | state1 => fn1 s c
  | state0 => fn0 s c
  | stateDot => fnDot s c
  | stateDot0 => fnDot0 s c
  | stateE => fnE s c
  | stateESign => fnESign s c
  | stateE0 => fnE0 s c
  | stateT => fnLetter "r" "in literal true (expecting 'r')" (setStep stateTr) s c
  | stateTr => fnLetter "u" "in literal true (expecting 'u')" (setStep stateTru) s c
  | stateTru => fnLetter "e" "in literal true (expecting 'e')" (emit (Bool true)) s c
  | stateF => fnLetter "a" "in literal false (expecting 'a')" (setStep stateFa) s c
  | stateFa => fnLetter "l" "in literal false (expecting 'l')" (setStep stateFal) s c
  | stateFal => fnLetter "s" "in literal false (expecting 's')" (setStep stateFals) s c
  | stateFals => fnLetter "e" "in literal false (expecting 'e')" (emit (Bool false)) s c
  | stateN => fnLetter "u" "in literal null (expecting 'u')" (setStep stateNu) s c
  | stateNu => fnLetter "l" "in literal null (expecting 'l')" (setStep stateNul) s c
  | stateNul => fnLetter "l" "in literal null (expecting 'l')" (emit Null) s c
  end.

(** The loop of [checkValid]: one step per input byte, stopping at the
    first error. *)
Fixpoint scan (s : scanner) (data : string) : Error + scanner :=
  match data with
  | EmptyString => inr s
  | String c rest =>
      match stepScanner s c with
      | inl e => inl e
      | inr s' => scan s' rest
      end
  end.

(** [s.eof()]: a value that only its end can terminate (a number) is
    closed by feeding one space. *)
Definition eof (s : scanner) : Error + scanner :=
  if endTop s then inr s
  else match stepScanner s " " with
       | inl e => inl e
       | inr s' => if endTop s' then inr s' else inl UnexpectedEnd
       end.

(** [checkValid], returning the value the scanner has recognised. *)
Definition checkValid (data : string) : Error + value :=
  match scan reset data with
  | inl e => inl e
  | inr s =>
      match eof s with
      | inl e => inl e
      | inr s' =>
          match top s' with
          | Some v => inr v
          | None => inl UnexpectedEnd
          end
      end
  end.

(** ** String literals: [unquoteBytes] *)

(** What a literal is made of: bytes standing for themselves (written
    plainly or as a one-letter escape) and [\uXXXX] code units. *)
Inductive unit : Type :=
  | Raw (c : ascii)
  | Esc16 (n : N).

Definition hexval (c : ascii) : N :=
  let n := N_of_ascii c in
  if between "0" "9" c then n - 48
  else if between "a" "f" c then n - 87
  else n - 55.

(** [getu4] on the four digits after [\u]. *)
Definition getu4 (a b c d : ascii) : N :=
  ((hexval a * 16 + hexval b) * 16 + hexval c) * 16 + hexval d.

Definition escaped (e : ascii) : ascii :=
  if e =? "b" then "008"
  else if e =? "f" then "012"
  else if e =? "n" then "010"
  else if e =? "r" then "013"
  else if e =? "t" then "009"
  else e.

Fixpoint units (s : string) : list unit :=
  match s with
  | EmptyString => []
  | String c rest =>
      if c =? "\" then
        match rest with
        | String e rest' =>
            if e =? "u" then
              match rest' with
              | String h1 (String h2 (String h3 (String h4 r))) =>
                  Esc16 (getu4 h1 h2 h3 h4) :: units r
              | _ => []
              end
            else Raw (escaped e) :: units rest'
        | EmptyString => []
        end
      else Raw c :: units rest
  end.

Definition byte (n : N) : ascii := ascii_of_N (n mod 256).

(** [unicode.ReplacementChar] in UTF-8 *)
Definition RuneError : string :=
  String (byte 239) (String (byte 191) (String (byte 189) "")).

Definition isSurrogate (r : N) : bool := ((55296 <=? r) && (r <? 57344))%N.

(** [utf8.EncodeRune] *)
Definition EncodeRune (r : N) : string :=
  (if r <? 128 then String (byte r) ""
   else if r <? 2048 then
     String (byte (192 + r / 64)) (String (byte (128 + r mod 64)) "")
   else if isSurrogate r || (1114111 <? r) then RuneError
   else if r <? 65536 then
     String (byte (224 + r / 4096))
       (String (byte (128 + (r / 64) mod 64))
          (String (byte (128 + r mod 64)) ""))
   else
     String (byte (240 + r / 262144))
       (String (byte (128 + (r / 4096) mod 64))
          (String (byte (128 + (r / 64) mod 64))
             (String (byte (128 + r mod 64)) ""))))%N.

(** [utf16.DecodeRune] *)
Definition DecodeRune16 (r1 r2 : N) : option N :=
  (if (55296 <=? r1) && (r1 <? 56320) && (56320 <=? r2) && (r2 <? 57344)
   then Some ((r1 - 55296) * 1024 + (r2 - 56320) + 65536)
   else None)%N.

(** The table behind [utf8.DecodeRune]: for a leading byte, how many
    bytes follow and the range the first of them must lie in. *)
Definition first (c0 : N) : option (nat * N * N) :=
  (if (194 <=? c0) && (c0 <=? 223) then Some (1%nat, 128, 191)
   else if c0 =? 224 then Some (2%nat, 160, 191)
   else if (225 <=? c0) && (c0 <=? 236) then Some (2%nat, 128, 191)
   else if c0 =? 237 then Some (2%nat, 128, 159)
   else if (238 <=? c0) && (c0 <=? 239) then Some (2%nat, 128, 191)
   else if c0 =? 240 then Some (3%nat, 144, 191)
   else if (241 <=? c0) && (c0 <=? 243) then Some (3%nat, 128, 191)
   else if c0 =? 244 then Some (3%nat, 128, 143)
   else None)%N.

Definition inRange (lo hi : N) (c : ascii) : bool :=
  ((lo <=? N_of_ascii c) && (N_of_ascii c <=? hi))%N.

Definition isCont (c : ascii) : bool := inRange 128 191 c.

(** The main loop of [unquoteBytes]: ASCII is copied, escapes are
    decoded, surrogate pairs are joined, and bytes that are not
    well-formed UTF-8 are replaced one at a time by [RuneError]. *)
Fixpoint decodeUnits (us : list unit) : string :=
  match us with
  | [] => ""
  | Esc16 rr :: us1 =>
      if isSurrogate rr then
        match us1 with
        | Esc16 rr1 :: us2 =>
            match DecodeRune16 rr rr1 with
            | Some dec => EncodeRune dec +:+ decodeUnits us2
            | None => RuneError +:+ decodeUnits us1
            end
        | _ => RuneError +:+ decodeUnits us1
        end
      else EncodeRune rr +:+ decodeUnits us1
  | Raw c0 :: us1 =>
      if (N_of_ascii c0 <? 128)%N then String c0 (decodeUnits us1)
      else
        match first (N_of_ascii c0), us1 with
        | Some (1%nat, lo, hi), Raw c1 :: us2 =>
            if inRange lo hi c1
            then String c0 (String c1 (decodeUnits us2))
            else RuneError +:+ decodeUnits us1
        | Some (2%nat, lo, hi), Raw c1 :: Raw c2 :: us3 =>
            if inRange lo hi c1 && isCont c2
            then String c0 (String c1 (String c2 (decodeUnits us3)))
            else RuneError +:+ decodeUnits us1
        | Some (3%nat, lo, hi), Raw c1 :: Raw c2 :: Raw c3 :: us4 =>
            if inRange lo hi c1 && isCont c2 && isCont c3
            then String c0 (String c1 (String c2 (String c3 (decodeUnits us4))))
            else RuneError +:+ decodeUnits us1
        | _, _ => RuneError +:+ decodeUnits us1
        end
  end.

(** [unquote] of the literal whose text between the quotes is [lit]. *)
Definition unquote (lit : string) : string := decodeUnits (units lit).

(** ** Decoding into the target struct *)

(** [struct { TagName string `json:"tag_name"` }] *)
Record release : Type := mkRelease { TagName : string }.

Record decodeState : Type := mkDecodeState {
  savedError : option Error;
  target : release
}.

(** [d.saveError]: the first error is kept. *)
Definition saveError (e : Error) (d : decodeState) : decodeState :=
  match savedError d with
  | Some _ => d
  | None => mkDecodeState (Some e) (target d)
  end.

Definition kind (v : value) : string :=
  match v with
  | Null => "null"
  | Bool _ => "bool"
  | Number _ => "number"
  | Str _ => "string"
  | Array _ => "array"
  | Object _ => "object"
  end.

Definition toUpper (c : ascii) : ascii :=
  if between "a" "z" c then ascii_of_N (N_of_ascii c - 32) else c.

Fixpoint foldName (s : string) : string :=
  match s with
  | EmptyString => EmptyString
  | String c rest => String (toUpper c) (foldName rest)
  end.

(** The field lookup of [d.object]: the exact name, then the
    case-folded one.  [foldName] maps ASCII letters to upper case; the two
    letters outside ASCII that the library folds into ASCII become S and
    K, which the name of the one field does not contain. *)
Definition isTagName (key : string) : bool :=
  bool_decide (key = "tag_name"%string)
  || bool_decide (foldName key = foldName "tag_name").

(** [d.value] on the [string] field [TagName]. *)
Definition storeTagName (v : value) (d : decodeState) : decodeState :=
  match v with
  | Str lit => mkDecodeState (savedError d) (mkRelease (unquote lit))
  | Null => d
  | _ => saveError (UnmarshalTypeError (kind v) "tag_name") d
  end.

(** [d.object] on the struct: every key is unquoted and looked up; the
    values of unknown keys are skipped. *)
Definition object (fields : list (string * value)) (d : decodeState)
    : decodeState :=
  fold_left
    (λ d kv, if isTagName (unquote kv.1) then storeTagName kv.2 d else d)
    fields d.

(** [d.value] on the struct itself. *)
Definition decodeValue (v : value) (d : decodeState) : decodeState :=
  match v with
  | Object fields => object fields d
  | Null => d
  | _ => saveError (UnmarshalTypeError (kind v) "") d
  end.

(** [json.Unmarshal(data, &r)]: the target after the call and the error
    returned.  Nothing is stored when [data] is not valid JSON. *)
Definition Unmarshal (data : string) (r : release) : release * option Error :=
  match checkValid data with
  | inl e => (r, Some e)
  | inr v =>
      let d := decodeValue v (mkDecodeState None r) in
      (target d, savedError d)
  end.

(** ** What the decoding accepts *)

(** A value the [string] field takes without complaint. *)
Definition storable (v : value) : bool :=
  match v with
  | Str _ | Null => true
  | _ => false
  end.

Definition tagged (kv : string * value) : bool := isTagName (unquote kv.1).

(** A document the struct decodes from without error: [null], or an
    object whose [tag_name] members are all strings or [null]. *)
Definition accepted (v : value) : bool :=
  match v with
  | Null => true
  | Object fields => forallb (λ kv, implb (tagged kv) (storable kv.2)) fields
  | _ => false
  end.

End json.

(** * Go values *)

(** Go's [error] interface, as far as this package builds and inspects it.
    [errorString] is what [errors.New] and [fmt.Errorf] without [%w] return;
    [wrapError] is [fmt.Errorf(prefix + "%w", err)], whose [Unwrap] is [err];
    [jsonError] is an error of encoding/json. *)
Inductive error : Type :=
  | errorString (s : string)
  | wrapError (prefix : string) (err : error)
  | jsonError (e : json.Error).

(** [errors.Unwrap] *)
Definition Unwrap (e : error) : option error :=
  match e with
  | wrapError _ err => Some err
  | _ => None
  end.

(** A Go result [(T, error)]: [inl err] when [err != nil]. *)
Abbreviation result A := (error + A)%type.

(** What the package takes from the standard library without fixing it:
    which strings [url.Parse] (behind [http.NewRequest]) rejects, and the
    message texts of encoding/json's errors. *)
Class Library : Type := {
  url_Parse : string → option error;
  json_Error : json.Error → string
}.

(** [err.Error()] *)
Fixpoint Error {lib : Library} (e : error) : string :=
  match e with
  | errorString s => s
  | wrapError prefix err => prefix +:+ Error err
  | jsonError e => json_Error e
  end.

(** ** net/http *)

(** [http.Header] *)
Abbreviation Header := (gmap string (list string)).

Record Request : Type := mkRequest {
  Method : string;
  URL : string;
  Headers : Header
}.

(** [http.NewRequest(method, url, nil)] *)
Definition NewRequest {lib : Library} (method url : string) : result Request :=
  match url_Parse url with
  | Some err => inl err
  | None => inr (mkRequest method url ∅)
  end.

(** [req.Header.Set(key, value)] *)
Definition Header_Set (key value : string) (req : Request) : Request :=
  mkRequest (Method req) (URL req) (<[key := [value]]> (Headers req)).

(** [resp.Body]: the bytes the peer delivers and, when the transfer breaks
    off after them, the error the reader reports. *)
Record ReadCloser : Type := mkBody {
  content : bytes;
  readErr : option error
}.

Record Response : Type := mkResponse {
  StatusCode : Z;
  Body : ReadCloser
}.

Definition StatusOK : Z := 200.

(** [type HTTPClient interface], whose one method [Do] takes a request and
    returns a response or an error; the client may change state. *)
Class HTTPClient (C : Type) : Type :=
  Do : C → Request → result Response * C.

(** [io.ReadAll] *)
Definition ReadAll (r : ReadCloser) : result bytes :=
  match readErr r with
  | Some err => inl err
  | None => inr (content r)
  end.

(** ** runtime *)

(** [type Runtime interface { GOOS() string; GOARCH() string }] *)
Class Runtime (R : Type) : Type := {
  GOOS : R → string;
  GOARCH : R → string
}.

(** ** The filesystem behind [afero.Fs] *)

(** [os.FileMode] *)
Abbreviation FileMode := Z.

Definition ModePerm : FileMode := 511.                (* 0777 *)
Definition ModeSetuid : FileMode := Z.shiftl 1 23.
Definition ModeSetgid : FileMode := Z.shiftl 1 22.
Definition ModeSticky : FileMode := Z.shiftl 1 20.

(** The mode [Download] asks for: 0755, rwxr-xr-x. *)
Definition perm0755 : FileMode := 493.

(** The bits [Chmod] may change. *)
Definition chmodBits : FileMode :=
  Z.lor (Z.lor (Z.lor ModePerm ModeSetuid) ModeSetgid) ModeSticky.

Record FileData : Type := mkFile {
  data : bytes;
  mode : FileMode
}.

(** A filesystem: the regular files it holds, and how the backend behaves.
    [createMode] is the mode [Create] leaves at a path given what was there
    (the OS keeps the mode of a file it truncates and applies the umask to
    a new one; the in-memory backend starts every file afresh).  The three
    [..Err] fields say where the backend refuses: creating at a path,
    writing to it beyond a number of bytes, changing its mode. *)
Record Fs : Type := mkFs {
  files : gmap string FileData;
  createMode : option FileData → FileMode;
  createErr : string → option error;
  writeErr : string → option (nat * error);
  chmodErr : string → option error
}.

Definition setFiles (m : gmap string FileData) (fs : Fs) : Fs :=
  mkFs m (createMode fs) (createErr fs) (writeErr fs) (chmodErr fs).

(** [afero.File]: the handle [Create] returns. *)
Record File : Type := mkHandle { Name : string }.

(** [fs.Create(name)]: creates the file or truncates it. *)
Definition Create (name : string) (fs : Fs) : result File * Fs :=
  match createErr fs name with
  | Some err => (inl err, fs)
  | None =>
      let f := mkFile [] (createMode fs (files fs !! name)) in
      (inr (mkHandle name), setFiles (<[name := f]> (files fs)) fs)
  end.

(** [f.Write(p)]: appends to the file; a refusing backend keeps the bytes
    that fit and reports its error. *)
Definition Write (f : File) (p : bytes) (fs : Fs) : result nat * Fs :=
  let append (q : bytes) :=
    setFiles (alter (λ fd, mkFile (data fd ++ q) (mode fd)) (Name f) (files fs)) fs in
  match writeErr fs (Name f) with
  | Some (n, err) =>
      if decide (n < length p)%nat
      then (inl err, append (take n p))
      else (inr (length p), append p)
  | None => (inr (length p), append p)
  end.

Definition ErrNotExist : error := errorString "file does not exist".

(** [fs.Chmod(name, mode)]: replaces the permission, setuid, setgid and
    sticky bits and keeps the others, as [os.Chmod] does on a POSIX
    system and the in-memory backend does everywhere. *)
Definition Chmod (name : string) (m : FileMode) (fs : Fs) : option error * Fs :=
  match chmodErr fs name with
  | Some err => (Some err, fs)
  | None =>
      match files fs !! name with
      | None => (Some ErrNotExist, fs)
      | Some fd =>
          let m' := Z.lor (Z.land (mode fd) (Z.lnot chmodBits)) (Z.land m chmodBits) in
          (None, setFiles (<[name := mkFile (data fd) m']> (files fs)) fs)
      end
  end.

(** ** log/slog *)

Inductive Level : Type := LevelDebug | LevelInfo.

Record LogRecord : Type := mkRecord {
  level : Level;
  message : string;
  attrs : list (string * string)
}.

(** * The downloader *)

(** A call across one of the injected interfaces, or on a value obtained
    from one. *)
Inductive Event : Type :=
  | HTTPClient_Do (req : Request)
  | Body_Close
  | Runtime_GOOS
  | Runtime_GOARCH
  | Fs_Create (name : string)
  | File_Write (name : string) (p : bytes)
  | File_Close (name : string)
  | Fs_Chmod (name : string) (m : FileMode).

Section Downloader.

Context {lib : Library} {C R : Type} {client : HTTPClient C} {rt : Runtime R}.

(** [type PklDownloader struct]: the four fields of the source hold the
    current state of each capability; [trace] lists the calls made so
    far, oldest first. *)
Record PklDownloader : Type := mkDownloader {
  logger : list LogRecord;
  httpClient : C;
  fs : Fs;
  runtime : R;
  trace : list Event
}.

(** A method of [*PklDownloader] returning [(A, error)]. *)
Definition M (A : Type) : Type := PklDownloader → result A * PklDownloader.

#[global] Instance ret : MRet M := λ A a d, (inr a, d).

(** [return ..., err] *)
Definition throw {A} (err : error) : M A := λ d, (inl err, d).

#[global] Instance bind : MBind M := λ A B k m d,
  match m d with
  | (inl err, d') => (inl err, d')
  | (inr a, d') => k a d'
  end.

(** [v, err := m; if err != nil { return fmt.Errorf(prefix + "%w", err) }] *)
Definition orWrap {A} (m : M A) (prefix : string) : M A :=
  λ d, match m d with
       | (inl err, d') => (inl (wrapError prefix err), d')
       | (inr a, d') => (inr a, d')
       end.

(** [defer cleanup] in front of [body]: [cleanup] runs when [body] is
    left, whichever way. *)
Definition defer {A} (cleanup : PklDownloader → PklDownloader) (body : M A) : M A :=
  λ d, let '(r, d') := body d in (r, cleanup d').

Definition lift {A} (r : result A) : M A := λ d, (r, d).

Definition emit (e : Event) (d : PklDownloader) : PklDownloader :=
  mkDownloader (logger d) (httpClient d) (fs d) (runtime d) (trace d ++ [e]).

Definition setClient (c : C) (d : PklDownloader) : PklDownloader :=
  mkDownloader (logger d) c (fs d) (runtime d) (trace d).

Definition setFs (fs' : Fs) (d : PklDownloader) : PklDownloader :=
  mkDownloader (logger d) (httpClient d) fs' (runtime d) (trace d).

Definition logged (r : LogRecord) (d : PklDownloader) : PklDownloader :=
  mkDownloader (logger d ++ [r]) (httpClient d) (fs d) (runtime d) (trace d).

(** [d.logger.Info] and [d.logger.Debug] *)
Definition log (l : Level) (msg : string) (args : list (string * string)) : M () :=
  λ d, (inr (), logged (mkRecord l msg args) d).

(** [d.httpClient.Do(req)] *)
Definition httpClient_Do (req : Request) : M Response :=
  λ d, let '(r, c) := Do (httpClient d) req in
       (r, emit (HTTPClient_Do req) (setClient c d)).

(** [d.runtime.GOOS()] and [d.runtime.GOARCH()] *)
Definition runtime_GOOS : M string :=
  λ d, (inr (GOOS (runtime d)), emit Runtime_GOOS d).

Definition runtime_GOARCH : M string :=
  λ d, (inr (GOARCH (runtime d)), emit Runtime_GOARCH d).

(** [d.fs.Create(path)] *)
Definition fs_Create (path : string) : M File :=
  λ d, let '(r, fs') := Create path (fs d) in
       (r, emit (Fs_Create path) (setFs fs' d)).

(** [d.fs.Chmod(path, mode)] *)
Definition fs_Chmod (path : string) (m : FileMode) : M () :=
  λ d, let '(r, fs') := Chmod path m (fs d) in
       (match r with Some err => inl err | None => inr () end,
        emit (Fs_Chmod path m) (setFs fs' d)).

(** [io.Copy(dst, src)]: what [src] delivers is written to [dst]; the
    first error, of the write or of the read, is returned. *)
Definition Copy (dst : File) (src : ReadCloser) : M nat :=
  λ d, let '(r, fs') := Write dst (content src) (fs d) in
       let d' := emit (File_Write (Name dst) (content src)) (setFs fs' d) in
       match r, readErr src with
       | inl err, _ => (inl err, d')
       | inr n, Some err => (inl err, d')
       | inr n, None => (inr n, d')
       end.

(** [resp.Body.Close()] and [out.Close()], as they are deferred. *)
Definition Close_Body : PklDownloader → PklDownloader := emit Body_Close.

Definition Close_File (out : File) : PklDownloader → PklDownloader :=
  emit (File_Close (Name out)).

Definition releaseURL : string :=
  "https://api.github.com/repos/apple/pkl/releases/latest".

(** The request [getLatestPklVersion] sends. *)
Definition releaseRequest : Request :=
  Header_Set "Accept" "application/vnd.github.v3+json"
    (mkRequest "GET" releaseURL ∅).

(** [getLatestPklVersion] fetches the latest release version of Pkl from
    GitHub. *)
Definition getLatestPklVersion : M string :=
  log LevelDebug "Fetching latest Pkl version from GitHub" [] ;;
  req ← orWrap (lift (NewRequest "GET" releaseURL)) "failed to create request: ";
  let req := Header_Set "Accept" "application/vnd.github.v3+json" req in
  resp ← orWrap (httpClient_Do req) "failed to fetch latest release: ";
  defer Close_Body (
    if decide (StatusCode resp ≠ StatusOK) then
      throw (errorString ("failed to fetch latest release: status code "
                          +:+ pretty (StatusCode resp)))
    else
      body ← orWrap (lift (ReadAll (Body resp))) "failed to read response body: ";
      let '(release, err) :=
        json.Unmarshal (string_of_list_byte body) (json.mkRelease "") in
      match err with
      | Some e => throw (wrapError "failed to parse release data: " (jsonError e))
      | None =>
          log LevelDebug "Found latest Pkl version"
            [("version", json.TagName release)] ;;
          mret (json.TagName release)
      end).

Definition downloadMap : gmap string string :=
  list_to_map [
    ("darwin/amd64", "pkl-macos-amd64");
    ("darwin/arm64", "pkl-macos-aarch64");
    ("linux/amd64", "pkl-linux-amd64");
    ("linux/arm64", "pkl-linux-aarch64");
    ("windows/amd64", "pkl-windows-amd64.exe")
  ].

(** [getPklDownloadURL] returns the download URL for the latest Pkl
    release. *)
Definition getPklDownloadURL (version : string) : M string :=
  let baseURL := "https://github.com/apple/pkl/releases/download/" +:+ version +:+ "/" in
  goos ← runtime_GOOS;
  goarch ← runtime_GOARCH;
  let lookupKey := goos +:+ "/" +:+ goarch in
  match downloadMap !! lookupKey with
  | None =>
      throw (errorString ("unsupported OS/architecture combination: "
                          +:+ goos +:+ "/" +:+ goarch))
  | Some filename => mret (baseURL +:+ filename)
  end.

(** [Download] fetches the latest version of Pkl and saves it to the
    specified path. *)
Definition Download (path : string) : M () :=
  log LevelInfo "Starting Pkl download" [("path", path)] ;;
  version ← orWrap getLatestPklVersion "failed to get latest version: ";
  downloadURL ← orWrap (getPklDownloadURL version) "failed to get download URL: ";
  log LevelDebug "Downloading Pkl binary"
    [("version", version); ("url", downloadURL)] ;;
  req ← orWrap (lift (NewRequest "GET" downloadURL))
           "failed to create download request: ";
  resp ← orWrap (httpClient_Do req) "failed to download binary: ";
  defer Close_Body (
    if decide (StatusCode resp ≠ StatusOK) then
      throw (errorString ("failed to download binary: status code "
                          +:+ pretty (StatusCode resp)))
    else
      out ← orWrap (fs_Create path) "failed to create file: ";
      defer (Close_File out) (
        orWrap (Copy out (Body resp)) "failed to write file: " ;;
        orWrap (fs_Chmod path perm0755) "failed to make file executable: " ;;
        log LevelInfo "Successfully downloaded Pkl"
          [("version", version); ("path", path)] ;;
        mret ())).

(** ** Runs of [Download], by the point they reach *)

(** The downloader as [Download] hands it to [getLatestPklVersion]. *)
Definition started (path : string) (d : PklDownloader) : PklDownloader :=
  logged (mkRecord LevelInfo "Starting Pkl download" [("path", path)]) d.

(** Lines 115-141 of [Download]: what it does once it holds the response
    [resp] to the artifact request. *)
Definition install (path version : string) (resp : Response) : M () :=
  defer Close_Body (
    if decide (StatusCode resp ≠ StatusOK) then
      throw (errorString ("failed to download binary: status code "
                          +:+ pretty (StatusCode resp)))
    else
      out ← orWrap (fs_Create path) "failed to create file: ";
      defer (Close_File out) (
        orWrap (Copy out (Body resp)) "failed to write file: " ;;
        orWrap (fs_Chmod path perm0755) "failed to make file executable: " ;;
        log LevelInfo "Successfully downloaded Pkl"
          [("version", version); ("path", path)] ;;
        mret ())).

(** [Download path] on [d] gets as far as the artifact response: the
    version lookup returns [version], the resolver [url], and the
    client answers the request [req] for it with [resp], leaving the
    downloader as [d']. *)
Definition fetched (path : string) (d : PklDownloader)
    (version url : string) (req : Request) (resp : Response)
    (d' : PklDownloader) : Prop :=
  ∃ d1 d2 c,
    getLatestPklVersion (started path d) = (inr version, d1)
    ∧ getPklDownloadURL version d1 = (inr url, d2)
    ∧ NewRequest "GET" url = inr req
    ∧ Do (httpClient d2) req = (inr resp, c)
    ∧ d' = emit (HTTPClient_Do req)
             (setClient c
                (logged (mkRecord LevelDebug "Downloading Pkl binary"
                           [("version", version); ("url", url)]) d2)).

(** The calls [m] makes when run on [d]. *)
Definition calls {A} (m : M A) (d : PklDownloader) : list Event :=
  drop (length (trace d)) (trace (m d).2).

End Downloader.

(** The HTTP requests among a list of calls. *)
Definition requests (evs : list Event) : list Request :=
  omap (λ e, match e with HTTPClient_Do req => Some req | _ => None end) evs.

(** The contexts [Download] wraps errors with, one for each stage. *)
Definition stages : list string := [
  "failed to get latest version";
  "failed to get download URL";
  "failed to create download request";
  "failed to download binary";
  "failed to create file";
  "failed to write file";
  "failed to make file executable"
].

(** An error whose message is a stage, ": " and a cause. *)
Definition staged {lib : Library} (err : error) : Prop :=
  ∃ stage cause, stage ∈ stages ∧ Error err = stage +:+ ": " +:+ cause.

(** The three installation steps of [Download], in the order of the
    source. *)
Definition installSteps (path : string) (body : bytes) : list Event :=
  [Fs_Create path; File_Write path body; Fs_Chmod path perm0755].

Definition isStep (e : Event) : bool :=
  match e with
  | Fs_Create _ | File_Write _ _ | Fs_Chmod _ _ => true
  | _ => false
  end.

(** The filesystem calls among a list of calls. *)
Definition isFsCall (e : Event) : bool :=
  match e with
  | Fs_Create _ | File_Write _ _ | File_Close _ | Fs_Chmod _ _ => true
  | _ => false
  end.

(** * The compatibility table, by platform pair *)

(** The five entries of [downloadMap], with the key split into the
    operating system and the architecture it is built from. *)
Definition compatibilityTable : list (string * string * string) := [
  ("darwin", "amd64", "pkl-macos-amd64");
  ("darwin", "arm64", "pkl-macos-aarch64");
  ("linux", "amd64", "pkl-linux-amd64");
  ("linux", "arm64", "pkl-linux-aarch64");
  ("windows", "amd64", "pkl-windows-amd64.exe")
].

Definition baseURL : string := "https://github.com/apple/pkl/releases/download/".

Definition platformKey (p : string * string) : string := p.1 +:+ "/" +:+ p.2.

Definition supported (p : string * string) : Prop :=
  p ∈ (λ e : string * string * string, e.1) <$> compatibilityTable.

Fixpoint hasSlash (s : string) : bool :=
  match s with
  | EmptyString => false
  | String c rest => (c =? "/")%char || hasSlash rest
  end.

Fixpoint hasSuffix (s suffix : string) : bool :=
  bool_decide (s = suffix)
  || match s with
     | EmptyString => false
     | String _ rest => hasSuffix rest suffix
     end.

(** * Test doubles, after [downloader_test.go] *)

(** [mockRuntime] reports fixed values. *)
Record mockRuntime : Type := mkMockRuntime {
  goos : string;
  goarch : string
}.

#[global] Instance mockRuntime_Runtime : Runtime mockRuntime :=
  {| GOOS := goos; GOARCH := goarch |}.

(** [MockHTTPClient]: the expected calls, each a request URL and what [Do]
    returns for it.  A call nobody expects is answered by an error. *)
Definition MockHTTPClient : Type := list (string * result Response).

#[global] Instance MockHTTPClient_Do : HTTPClient MockHTTPClient := λ c req,
  (match list_find (λ e, e.1 = URL req) c with
   | Some (_, e) => e.2
   | None => inl (errorString "mock: unexpected call")
   end, c).

Definition ModeTemporary : FileMode := Z.shiftl 1 28.

(** [afero.NewMemMapFs()]: empty, every [Create] starts a fresh file, no
    call fails. *)
Definition NewMemMapFs : Fs :=
  mkFs ∅ (λ _, ModeTemporary) (λ _, None) (λ _, None) (λ _, None).

(** A filesystem of the operating system with the given umask: a file
    that exists keeps its mode when [Create] truncates it. *)
Definition OsFs (umask : FileMode) (m : gmap string FileData) : Fs :=
  mkFs m
    (λ old, match old with
            | Some fd => mode fd
            | None => Z.land 438 (Z.lnot umask)     (* 0666 &^ umask *)
            end)
    (λ _, None) (λ _, None) (λ _, None).

Definition stringContainsCTLByte (s : string) : bool :=
  existsb (λ c, (N_of_ascii c <? 32)%N || (N_of_ascii c =? 127)%N)
    (list_ascii_of_string s).

(** A library for the examples: [url.Parse] rejects control characters,
    and the errors of encoding/json are rendered plainly. *)
Definition exampleLibrary : Library := {|
  url_Parse := λ s,
    if stringContainsCTLByte s
    then Some (errorString "net/url: invalid control character in URL")
    else None;
  json_Error := λ e,
    match e with
    | json.UnexpectedEnd => "unexpected end of JSON input"
    | json.InvalidCharacter c context =>
        "invalid character '" +:+ String c "' " +:+ context
    | json.UnmarshalTypeError v _ => "json: cannot unmarshal " +:+ v
    end
|}.

(** The body [{"tag_name": "<version>"}] the tests serve as release index. *)
Definition dquote : string := String "034" "".

Definition releaseJSON (version : string) : bytes :=
  list_byte_of_string
    ("{" +:+ dquote +:+ "tag_name" +:+ dquote +:+ ": "
         +:+ dquote +:+ version +:+ dquote +:+ "}").

(** [make([]byte, n)] *)
Definition zeros (n : nat) : bytes := replicate n Byte.x00.

Definition mockDownloader (c : MockHTTPClient) (fs0 : Fs) (os arch : string)
    : PklDownloader :=
  mkDownloader [] c fs0 (mkMockRuntime os arch) [].

(** The setup of the success cases of [TestPklDownloader_Download]. *)
Definition successClient (version downloadURL : string) : MockHTTPClient := [
  ("https://api.github.com/repos/apple/pkl/releases/latest",
   inr (mkResponse StatusOK (mkBody (releaseJSON version) None)));
  (downloadURL, inr (mkResponse StatusOK (mkBody (zeros 10) None)))
].

(** An in-memory filesystem whose backend refuses as told. *)
Definition refusingFs (create : option error) (write : option (nat * error))
    (chmod : option error) : Fs :=
  mkFs ∅ (λ _, ModeTemporary) (λ _, create) (λ _, write) (λ _, chmod).

(** The inputs of the tests: target path, platform, release. *)
Definition testPath : string := "/tmp/pkl".

Definition linuxURL : string :=
  "https://github.com/apple/pkl/releases/download/0.28.2/pkl-linux-amd64".

Definition linuxRequest : Request := mkRequest "GET" linuxURL ∅.

(** The downloader of a test on linux/amd64. *)
Definition testDownloader (c : MockHTTPClient) (fs0 : Fs) : PklDownloader :=
  mockDownloader c fs0 "linux" "amd64".

(** The response the success cases serve for the artifact. *)
Definition artifactResponse : Response :=
  mkResponse StatusOK (mkBody (zeros 10) None).

(** The client of a test that gets past the version lookup: the release
    index serves the tag "0.28.2" and the artifact request ends as [r]. *)
Definition testClient (r : result Response) : MockHTTPClient := [
  (releaseURL, inr (mkResponse StatusOK (mkBody (releaseJSON "0.28.2") None)));
  (linuxURL, r)
].

(** [testDownloader c fs0] once [Download] holds the response to
    [linuxRequest]. *)
Definition atArtifact (c : MockHTTPClient) (fs0 : Fs) : PklDownloader :=
  let d1 := (getLatestPklVersion (lib := exampleLibrary)
               (started testPath (testDownloader c fs0))).2 in
  let d2 := (getPklDownloadURL "0.28.2" d1).2 in
  emit (HTTPClient_Do linuxRequest)
    (setClient (Do (httpClient d2) linuxRequest).2
       (logged (mkRecord LevelDebug "Downloading Pkl binary"
                  [("version", "0.28.2"); ("url", linuxURL)]) d2)).

(** What a test observes: the message of the returned error, if any, and
    the file at the target path. *)
Definition observe (d : PklDownloader (C := MockHTTPClient) (R := mockRuntime))
    : option string * option (nat * FileMode) :=
  let '(r, d') := Download (lib := exampleLibrary) testPath d in
  (match r with
   | inl err => Some (Error (lib := exampleLibrary) err)
   | inr _ => None
   end,
   (λ fd, (length (data fd), Z.land (mode fd) ModePerm)) <$> files (fs d') !! testPath).

Definition successCase (os arch downloadURL : string) : Prop :=
  observe (mockDownloader (successClient "0.28.2" downloadURL) NewMemMapFs os arch)
  = (None, Some (10%nat, perm0755)).

(** * More of the downloader *)




(** * The constructor and its options *)

(** An interface field holds the default implementation or one the caller
    supplied: a sum, with the methods dispatched on the side. *)
#[global] Instance sum_HTTPClient {A B : Type} {HA : HTTPClient A} {HB : HTTPClient B}
    : HTTPClient (A + B) := λ c req,
  match c with
  | inl a => let '(r, a') := Do a req in (r, inl a')
  | inr b => let '(r, b') := Do b req in (r, inr b')
  end.

#[global] Instance sum_Runtime {A B : Type} {HA : Runtime A} {HB : Runtime B}
    : Runtime (A + B) := {|
  GOOS r := match r with inl a => GOOS a | inr b => GOOS b end;
  GOARCH r := match r with inl a => GOARCH a | inr b => GOARCH b end
|}.

(** [time.Duration], in nanoseconds. *)
Definition Second : Z := 1000000000.

(** What [NewPklDownloader] takes from its surroundings: the default
    logger, the network as an [http.Client] with a given timeout reaches
    it, the filesystem of the operating system, and the default runtime.
    [N] and [D] are the types of the default client and runtime. *)
Record Defaults (N D : Type) : Type := mkDefaults {
  slog_Default : list LogRecord;
  http_Client : Z → N;
  afero_NewOsFs : Fs;
  defaultRuntime : D
}.

Arguments mkDefaults {N D}.
Arguments slog_Default {N D}.
Arguments http_Client {N D}.
Arguments afero_NewOsFs {N D}.
Arguments defaultRuntime {N D}.

Section Options.

Context {N D C R : Type}.

(** The downloader [NewPklDownloader] builds: client and runtime are the
    defaults, on the left, or the caller's, on the right. *)
Abbreviation Downloader := (PklDownloader (C := N + C) (R := D + R)).

(** [type Option]: a function that configures a [PklDownloader]. *)
Definition Option : Type := Downloader → Downloader.

(** [WithLogger] sets the logger for the [PklDownloader]. *)
Definition WithLogger (l : list LogRecord) : Option :=
  λ d, mkDownloader l (httpClient d) (fs d) (runtime d) (trace d).

(** [WithHTTPClient] sets the HTTP client for the [PklDownloader]. *)
Definition WithHTTPClient (c : C) : Option :=
  λ d, mkDownloader (logger d) (inr c) (fs d) (runtime d) (trace d).

(** [WithFilesystem] sets the filesystem for the [PklDownloader]. *)
Definition WithFilesystem (f : Fs) : Option :=
  λ d, mkDownloader (logger d) (httpClient d) f (runtime d) (trace d).

(** [WithRuntime] sets the runtime for the [PklDownloader]. *)
Definition WithRuntime (r : R) : Option :=
  λ d, mkDownloader (logger d) (httpClient d) (fs d) (inr r) (trace d).

(** [NewPklDownloader] creates a new [PklDownloader] instance with the
    provided options. *)
Definition NewPklDownloader (env : Defaults N D) (opts : list Option) : Downloader :=
  let d := mkDownloader (slog_Default env) (inl (http_Client env (10 * Second)))
             (afero_NewOsFs env) (inl (defaultRuntime env)) [] in
  fold_left (λ d opt, opt d) opts d.

(** The four options of the package, by what they set. *)
Inductive Setting : Type :=
  | SetLogger (l : list LogRecord)
  | SetHTTPClient (c : C)
  | SetFilesystem (f : Fs)
  | SetRuntime (r : R).

Definition option_of (s : Setting) : Option :=
  match s with
  | SetLogger l => WithLogger l
  | SetHTTPClient c => WithHTTPClient c
  | SetFilesystem f => WithFilesystem f
  | SetRuntime r => WithRuntime r
  end.

Definition theLogger (s : Setting) : option (list LogRecord) :=
  match s with SetLogger l => Some l | _ => None end.

Definition theHTTPClient (s : Setting) : option C :=
  match s with SetHTTPClient c => Some c | _ => None end.

Definition theFilesystem (s : Setting) : option Fs :=
  match s with SetFilesystem f => Some f | _ => None end.

Definition theRuntime (s : Setting) : option R :=
  match s with SetRuntime r => Some r | _ => None end.

End Options.

(** [type defaultRuntime struct{}] implements [Runtime] using the standard
    runtime package, whose [GOOS] and [GOARCH] are constants of the
    build. *)
Class Build : Type := {
  build_GOOS : string;
  build_GOARCH : string
}.

Inductive defaultRuntimeT : Type := mkDefaultRuntime.

#[global] Instance defaultRuntime_Runtime {build : Build} : Runtime defaultRuntimeT := {|
  GOOS _ := build_GOOS;
  GOARCH _ := build_GOARCH
|}.

(** A caller that supplies no client and no runtime of its own. *)
#[global] Instance Empty_set_HTTPClient : HTTPClient Empty_set :=
  λ (c : Empty_set) _, match c with end.

#[global] Instance Empty_set_Runtime : Runtime Empty_set := {|
  GOOS (r : Empty_set) := match r with end;
  GOARCH (r : Empty_set) := match r with end
|}.

(** * schema: [Schema.pkl.go] *)

(** [pkl.ModuleSource], as [pkl.FileSource] builds it. *)
Inductive ModuleSource : Type :=
  | FileSource (pathElems : list string).

(** A call on the evaluator of pkl-go. *)
Inductive EvaluatorCall : Type :=
  | Pkl_NewEvaluator
  | Evaluator_EvaluateModule (source : ModuleSource)
  | Evaluator_Close.

Section Schema.

(** [type Project], declared in a file of the package that is not at
    hand; [cfg.Project.Name] is read from it. *)
Context {Project : Type} (Project_Name : Project → string).

(** [type Schema struct { Project *Project }] *)
Record Schema : Type := mkSchema {
  project : option Project
}.

(** [pkl.Evaluator], as far as the package calls it: [EvaluateModule]
    fills the value it is handed and may fail, [Close] may fail. *)
Class Evaluator (E : Type) : Type := {
  EvaluateModule : E → ModuleSource → Schema → (Schema * option error) * E;
  Close : E → option error * E
}.

Context {E : Type} {evaluator : Evaluator E}.

(** [pkl.NewEvaluator(ctx, pkl.PreconfiguredOptions)] *)
Context (NewEvaluator : result E).

(** [Load] loads the pkl module at the given source and evaluates it with
    the given evaluator into a [Schema]. *)
Definition Load (ev : E) (source : ModuleSource)
    : (option Schema * option error) * E :=
  let '((ret, err), ev') := EvaluateModule ev source (mkSchema None) in
  match err with
  | Some e => ((None, Some e), ev')
  | None => ((Some ret, None), ev')
  end.

(** [LoadFromPath] loads the pkl module at the given path and evaluates it
    into a [Schema].  The results are the named results [ret] and [err] of
    the source, as the deferred function leaves them, and the calls
    made. *)
Definition LoadFromPath (path : string)
    : (option Schema * option error) * list EvaluatorCall :=
  match NewEvaluator with
  | inl err => ((None, Some err), [Pkl_NewEvaluator])
  | inr ev =>
      let source := FileSource [path] in
      let '((ret, err), ev1) := Load ev source in
      let '(cerr, _) := Close ev1 in
      ((ret, match err with None => cerr | Some _ => err end),
       [Pkl_NewEvaluator; Evaluator_EvaluateModule source; Evaluator_Close])
  end.



End Schema.

(** * main: [cmd/main.go] *)

(** [slog.Record], with the level as the number slog gives it. *)
Record SlogRecord : Type := mkSlogRecord {
  slog_level : Z;
  slog_message : string;
  slog_attrs : list (string * string)
}.

Definition slog_LevelDebug : Z := -4.
Definition slog_LevelInfo : Z := 0.
Definition slog_LevelError : Z := 8.

(** A record of the downloader in the sink of the caller's logger. *)
Definition slog_of (r : LogRecord) : SlogRecord :=
  mkSlogRecord
    (match level r with LevelDebug => slog_LevelDebug | LevelInfo => slog_LevelInfo end)
    (message r) (attrs r).

(** A call [checkPklBinary] makes, directly or through the downloader. *)
Inductive MainCall : Type :=
  | Exec_LookPath (file : string)
  | Form_Run
  | Os_UserHomeDir
  | Os_MkdirAll (path : string) (perm : FileMode)
  | Downloader_call (e : Event).

(** What [main] finds around it: the lookup of executables, the
    confirmation form and the user answering it (an error, or the value
    left in [shouldInstall]), the home directory, [os.MkdirAll] on the
    filesystem, and [filepath.Join]. *)
Class Host (H : Type) : Type := {
  exec_LookPath : H → string → result string;
  form_Run : H → result bool * H;
  os_UserHomeDir : H → result string;
  os_MkdirAll : string → FileMode → Fs → option error * Fs;
  filepath_Join : list string → string
}.

Section Main.

Context {lib : Library} {build : Build} {H N : Type} {host : Host H} {net : HTTPClient N}.

(** The default logger and the default HTTP client of the process. *)
Context (default_logger : list LogRecord) (default_client : Z → N).

(** The process: the host, the filesystem of the operating system, what
    the logger has written and the calls made so far. *)
Record Process : Type := mkProcess {
  hostState : H;
  osfs : Fs;
  sink : list SlogRecord;
  mainCalls : list MainCall
}.

Definition called (c : MainCall) (p : Process) : Process :=
  mkProcess (hostState p) (osfs p) (sink p) (mainCalls p ++ [c]).

Definition slogged (level : Z) (msg : string) (args : list (string * string))
    (p : Process) : Process :=
  mkProcess (hostState p) (osfs p) (sink p ++ [mkSlogRecord level msg args])
    (mainCalls p).

(** The local [binaryName] of [getInstallPath]. *)
Definition binaryName : string :=
  if decide (build_GOOS = "windows") then "pkl.exe" else "pkl".

(** [getInstallPath] returns the appropriate installation path for the pkl
    binary based on the OS. *)
Definition getInstallPath (p : Process) : result string * Process :=
  let p := called Os_UserHomeDir p in
  match os_UserHomeDir (hostState p) with
  | inl err => (inl (wrapError "failed to get user home directory: " err), p)
  | inr home =>
      let binDir := filepath_Join [home; ".local"; "bin"] in
      let '(merr, fs') := os_MkdirAll binDir perm0755 (osfs p) in
      let p := called (Os_MkdirAll binDir perm0755)
                 (mkProcess (hostState p) fs' (sink p) (mainCalls p)) in
      match merr with
      | Some err =>
          (inl (wrapError "failed to create .local/bin directory: " err), p)
      | None => (inr (filepath_Join [binDir; binaryName]), p)
      end
  end.

(** The downloader [checkPklBinary] builds:
    [pkl.NewPklDownloader(pkl.WithLogger(logger))] on the filesystem as it
    is.  The records it logs go to the caller's sink. *)
Definition newDownloader (p : Process)
    : PklDownloader (C := N + Empty_set) (R := defaultRuntimeT + Empty_set) :=
  NewPklDownloader
    (mkDefaults default_logger default_client (osfs p) mkDefaultRuntime)
    [WithLogger []].

(** The process after the downloader has run. *)
Definition downloaded
    (d : PklDownloader (C := N + Empty_set) (R := defaultRuntimeT + Empty_set))
    (p : Process) : Process :=
  mkProcess (hostState p) (fs d) (sink p ++ (slog_of <$> logger d))
    (mainCalls p ++ (Downloader_call <$> trace d)).

(** [checkPklBinary] checks if the pkl binary is available in PATH and
    prompts for installation if not found.  Returns the path to the pkl
    binary and any error that occurred. *)
Definition checkPklBinary (p : Process) : result string * Process :=
  let p := called (Exec_LookPath "pkl") p in
  match exec_LookPath (hostState p) "pkl" with
  | inr pklPath =>
      (inr pklPath, slogged slog_LevelDebug "Found pkl binary" [("path", pklPath)] p)
  | inl _ =>
      let p := slogged slog_LevelError "pkl binary not found in PATH" [] p in
      let '(answer, h) := form_Run (hostState p) in
      let p := called Form_Run (mkProcess h (osfs p) (sink p) (mainCalls p)) in
      match answer with
      | inl err =>
          (inl (wrapError "failed to show installation prompt: " err), p)
      | inr false =>
          (inl (errorString "pkl binary not found in PATH. Please install pkl first"), p)
      | inr true =>
          match getInstallPath p with
          | (inl err, p) =>
              (inl (wrapError "failed to determine installation path: " err), p)
          | (inr installPath, p) =>
              let downloader := newDownloader p in
              let p := slogged slog_LevelInfo "Downloading pkl..." [] p in
              let '(r, d) := Download installPath downloader in
              let p := downloaded d p in
              match r with
              | inl err => (inl (wrapError "failed to download pkl: " err), p)
              | inr _ =>
                  (inr installPath,
                   slogged slog_LevelInfo "Successfully installed pkl"
                     [("path", installPath)] p)
              end
          end
      end
  end.

End Main.

(** * A host for the examples *)

(** What is on the PATH, what the user answers, and the home directory. *)
Record TestHost : Type := mkTestHost {
  onPath : option string;
  answer : result bool;
  homeDir : result string
}.

#[global] Instance TestHost_Host : Host TestHost := {|
  exec_LookPath h file :=
    match onPath h with
    | Some path => inr path
    | None => inl (errorString ("exec: " +:+ file +:+ ": executable file not found in $PATH"))
    end;
  form_Run h := (answer h, h);
  os_UserHomeDir h := homeDir h;
  os_MkdirAll _ _ fs0 := (None, fs0);
  filepath_Join elems := String.concat "/" elems
|}.

Definition linuxBuild : Build := {|
  build_GOOS := "linux";
  build_GOARCH := "amd64"
|}.

(** A machine without pkl whose user agrees to the installation. *)
Definition consenting : TestHost :=
  mkTestHost None (inr true) (inr "/home/user").

Definition testProcess (h : TestHost) (fs0 : Fs) : Process :=
  mkProcess h fs0 [] [].

(** An evaluator for the examples: what [EvaluateModule] stores and
    returns, and what [Close] returns. *)
Record TestEvaluator : Type := mkTestEvaluator {
  evaluates : option string * option error;
  closes : option error
}.

#[global] Instance TestEvaluator_Evaluator : Evaluator (Project := string) TestEvaluator := {|
  EvaluateModule ev _ out :=
    ((match evaluates ev with
      | (Some name, _) => mkSchema (Some name)
      | (None, _) => out
      end, (evaluates ev).2), ev);
  Close ev := (closes ev, ev)
|}.

(** A build for a platform without an artifact. *)
Definition plan9Build : Build := {|
  build_GOOS := "plan9";
  build_GOARCH := "amd64"
|}.

(** A user who declines. *)
Definition declining : TestHost :=
  mkTestHost None (inr false) (inr "/home/user").

(** * Strings *)

Lemma string_app_assoc (a b c : string) : (a +:+ b) +:+ c = a +:+ b +:+ c.
Proof.
  induction a as [|x a IH]; [done|].
  change (String x ((a +:+ b) +:+ c) = String x (a +:+ b +:+ c)).
  by rewrite IH.
Qed.

Lemma hasSlash_app (a b : string) : hasSlash (a +:+ "/" +:+ b) = true.
Proof.
  induction a as [|x a IH]; [done|].
  change (((x =? "/")%char || hasSlash (a +:+ "/" +:+ b)) = true).
  rewrite IH. apply orb_true_r.
Qed.

(** A key has one reading as a pair when neither part holds a slash. *)
Lemma platformKey_split (os arch o a : string) :
  hasSlash o = false → hasSlash a = false →
  os +:+ "/" +:+ arch = o +:+ "/" +:+ a → os = o ∧ arch = a.
Proof.
  intros Ho Ha. revert os.
  induction o as [|y o IH]; intros [|x os] Heq.
  - split; [done|]. by injection Heq.
  - change (String x (os +:+ "/" +:+ arch) = String "/" a) in Heq.
    injection Heq as -> Heq. rewrite <- Heq, hasSlash_app in Ha. done.
  - change (String "/" arch = String y (o +:+ "/" +:+ a)) in Heq.
    injection Heq as <- _. done.
  - change (String x (os +:+ "/" +:+ arch) = String y (o +:+ "/" +:+ a)) in Heq.
    injection Heq as -> Heq. simpl in Ho.
    apply orb_false_iff in Ho as [_ Ho].
    destruct (IH Ho os Heq) as [-> ->]. done.
Qed.

Lemma platformKey_inj (p q : string * string) :
  hasSlash q.1 = false → hasSlash q.2 = false →
  platformKey p = platformKey q → p = q.
Proof.
  destruct p as [os arch], q as [o a]. unfold platformKey. simpl.
  intros Ho Ha Heq. by destruct (platformKey_split _ _ _ _ Ho Ha Heq) as [-> ->].
Qed.

(** * The decoder *)

Lemma storeTagName_savedError (v : json.value) (d : json.decodeState) :
  json.savedError (json.storeTagName v d) = None
  ↔ json.savedError d = None ∧ json.storable v = true.
Proof.
  destruct d as [[e|] r], v; simpl; unfold json.saveError; simpl; naive_solver.
Qed.

Lemma object_savedError (fields : list (string * json.value)) (d : json.decodeState) :
  json.savedError (json.object fields d) = None
  ↔ json.savedError d = None
    ∧ forallb (λ kv, implb (json.tagged kv) (json.storable kv.2)) fields = true.
Proof.
  unfold json.object. revert d.
  induction fields as [|kv fields IH]; intros d; simpl; [naive_solver|].
  rewrite IH, andb_true_iff. unfold json.tagged at 2.
  destruct (json.isTagName _); simpl.
  - rewrite storeTagName_savedError. naive_solver.
  - naive_solver.
Qed.

(** An object without a [tag_name] member leaves the target as it was. *)
Lemma object_untagged (fields : list (string * json.value)) (d : json.decodeState) :
  forallb (λ kv, negb (json.tagged kv)) fields = true →
  json.object fields d = d.
Proof.
  unfold json.object. revert d.
  induction fields as [|kv fields IH]; intros d; simpl; [done|].
  rewrite andb_true_iff. unfold json.tagged at 1.
  destruct (json.isTagName _); simpl; [by intros [? _]|]. intros [_ ?]. by apply IH.
Qed.

(** [json.Unmarshal] returns no error exactly on the valid documents the
    struct accepts. *)
Lemma Unmarshal_no_error (data : string) (r : json.release) :
  (json.Unmarshal data r).2 = None
  ↔ ∃ v, json.checkValid data = inr v ∧ json.accepted v = true.
Proof.
  unfold json.Unmarshal. destruct (json.checkValid data) as [e|v]; simpl.
  { split; [done|]. by intros (? & ? & _). }
  assert (json.savedError (json.decodeValue v (json.mkDecodeState None r)) = None
          ↔ json.accepted v = true) as ->.
  { destruct v; simpl; try done. rewrite object_savedError. simpl. naive_solver. }
  split; [by exists v|]. by intros (? & [= <-] & ?).
Qed.

(** * The artifact resolver *)

Section Resolver.

Context {lib : Library} {C R : Type} {client : HTTPClient C} {rt : Runtime R}.

Implicit Types d : PklDownloader (C := C) (R := R).

(** [getPklDownloadURL] queries the runtime once for each identifier and
    does nothing else to the downloader. *)
Lemma getPklDownloadURL_run version d :
  getPklDownloadURL version d =
    (match downloadMap !! platformKey (GOOS (runtime d), GOARCH (runtime d)) with
     | Some filename => inr ((baseURL +:+ version +:+ "/") +:+ filename)
     | None =>
         inl (errorString ("unsupported OS/architecture combination: "
                           +:+ GOOS (runtime d) +:+ "/" +:+ GOARCH (runtime d)))
     end,
     emit Runtime_GOARCH (emit Runtime_GOOS d)).
Proof.
  unfold getPklDownloadURL, mbind, bind, runtime_GOOS, runtime_GOARCH, platformKey.
  simpl. by destruct (downloadMap !! _).
Qed.

(** [downloadMap] is the compatibility table, keyed by "os/arch". *)
Lemma downloadMap_table :
  downloadMap =
    list_to_map ((λ e : string * string * string, (platformKey e.1, e.2))
                   <$> compatibilityTable).
Proof. reflexivity. Qed.

Lemma downloadMap_lookup (os arch filename : string) :
  (os, arch, filename) ∈ compatibilityTable →
  downloadMap !! platformKey (os, arch) = Some filename.
Proof.
  unfold compatibilityTable. rewrite !elem_of_cons, elem_of_nil.
  intros [?|[?|[?|[?|[?|[]]]]]]; simplify_eq; by vm_compute.
Qed.

Lemma downloadMap_lookup_None (p : string * string) :
  ¬ supported p → downloadMap !! platformKey p = None.
Proof.
  intros Hp. unfold downloadMap.
  apply not_elem_of_list_to_map_1. intros Hin. apply Hp.
  change (platformKey p ∈ platformKey <$>
            ((λ e : string * string * string, e.1) <$> compatibilityTable)) in Hin.
  apply list_elem_of_fmap in Hin as (q & Heq & Hq).
  assert (hasSlash q.1 = false ∧ hasSlash q.2 = false) as [Hq1 Hq2].
  { revert Hq. unfold compatibilityTable. simpl.
    rewrite !elem_of_cons, elem_of_nil.
    intros [->|[->|[->|[->|[->|[]]]]]]; by vm_compute. }
  by rewrite (platformKey_inj p q Hq1 Hq2 Heq).
Qed.

(** C1.  For each of the five entries of the compatibility table and
    every version string, [getPklDownloadURL] succeeds and returns the
    base URL, the version, a slash and the entry's filename; it only
    queries the runtime.  In particular linux/amd64 at "0.28.2" resolves
    to .../0.28.2/pkl-linux-amd64, the filename of darwin/arm64 is
    pkl-macos-aarch64, and the filename of windows/amd64 ends in
    ".exe". *)
Theorem getPklDownloadURL_supported d (os arch filename version : string) :
  (os, arch, filename) ∈ compatibilityTable →
  GOOS (runtime d) = os →
  GOARCH (runtime d) = arch →
  getPklDownloadURL version d =
    (inr ("https://github.com/apple/pkl/releases/download/"
          +:+ version +:+ "/" +:+ filename),
     emit Runtime_GOARCH (emit Runtime_GOOS d))
  ∧ (os = "linux" → arch = "amd64" → version = "0.28.2" →
     (getPklDownloadURL version d).1 =
       inr "https://github.com/apple/pkl/releases/download/0.28.2/pkl-linux-amd64")
  ∧ (os = "darwin" → arch = "arm64" → filename = "pkl-macos-aarch64")
  ∧ (os = "windows" → arch = "amd64" → hasSuffix filename ".exe" = true).
Proof.
  intros Hin Hos Harch.
  assert (getPklDownloadURL version d =
            (inr (baseURL +:+ version +:+ "/" +:+ filename),
             emit Runtime_GOARCH (emit Runtime_GOOS d))) as Hrun.
  { rewrite getPklDownloadURL_run, Hos, Harch, (downloadMap_lookup _ _ _ Hin).
    by rewrite !string_app_assoc. }
  split; [exact Hrun|]. split; [|split].
  - intros -> -> ->. rewrite Hrun. simpl. f_equal.
    revert Hin. unfold compatibilityTable. rewrite !elem_of_cons, elem_of_nil.
    intros [?|[?|[?|[?|[?|[]]]]]]; by simplify_eq.
  - intros -> ->. revert Hin. unfold compatibilityTable.
    rewrite !elem_of_cons, elem_of_nil.
    intros [?|[?|[?|[?|[?|[]]]]]]; by simplify_eq.
  - intros -> ->. revert Hin. unfold compatibilityTable.
    rewrite !elem_of_cons, elem_of_nil.
    intros [?|[?|[?|[?|[?|[]]]]]]; by simplify_eq.
Qed.

(** C2.  For a platform pair that is not a key of the compatibility
    table, [getPklDownloadURL] fails, whatever the version string, with
    the error whose message is "unsupported OS/architecture
    combination: " followed by the pair as the runtime reported it. *)
Theorem getPklDownloadURL_unsupported d (os arch : string) :
  GOOS (runtime d) = os →
  GOARCH (runtime d) = arch →
  ¬ supported (os, arch) →
  ∃ err,
    (∀ version,
       getPklDownloadURL version d =
         (inl err, emit Runtime_GOARCH (emit Runtime_GOOS d)))
    ∧ Error err = "unsupported OS/architecture combination: " +:+ os +:+ "/" +:+ arch
    ∧ Unwrap err = None.
Proof.
  intros Hos Harch Hp. eexists. split; [|split].
  - intros version.
    rewrite getPklDownloadURL_run, Hos, Harch, (downloadMap_lookup_None _ Hp).
    reflexivity.
  - done.
  - done.
Qed.

End Resolver.

(** * The filesystem *)


Lemma Create_inr (name : string) (fs0 fs1 : Fs) (out : File) :
  Create name fs0 = (inr out, fs1) →
  createErr fs0 name = None
  ∧ out = mkHandle name
  ∧ fs1 = setFiles (<[name := mkFile [] (createMode fs0 (files fs0 !! name))]> (files fs0)) fs0.
Proof. unfold Create. destruct (createErr fs0 name); by intros [= <- <-]. Qed.

Lemma Create_inl (name : string) (fs0 fs1 : Fs) (err : error) :
  Create name fs0 = (inl err, fs1) → createErr fs0 name = Some err ∧ fs1 = fs0.
Proof. unfold Create. destruct (createErr fs0 name); by intros [= <- <-]. Qed.

(** A write changes the contents of its file and nothing else; what it
    leaves is a prefix of what it was given, all of it when it succeeds. *)
Lemma Write_spec (f : File) (p : bytes) (fs0 : Fs) :
  ∃ q,
    (Write f p fs0).2 =
      setFiles (alter (λ fd, mkFile (data fd ++ q) (mode fd)) (Name f) (files fs0)) fs0
    ∧ q `prefix_of` p
    ∧ (∀ n, (Write f p fs0).1 = inr n → q = p ∧ n = length p).
Proof.
  unfold Write. destruct (writeErr fs0 (Name f)) as [[n err]|]; [case_decide|].
  - exists (take n p). split; [done|]. split; [apply prefix_take|done].
  - exists p. split; [done|]. split; [done|]. by intros ? [= <-].
  - exists p. split; [done|]. split; [done|]. by intros ? [= <-].
Qed.


(** * Runs of the downloader *)

Section Runs.

Context {lib : Library} {C R : Type} {client : HTTPClient C} {rt : Runtime R}.

Implicit Types d : PklDownloader (C := C) (R := R).

Ltac unfold_M :=
  cbv [mbind mret bind ret orWrap lift defer throw log
       httpClient_Do runtime_GOOS runtime_GOARCH fs_Create fs_Chmod Copy].

(** [getLatestPklVersion], one outcome after the other. *)
Lemma getLatestPklVersion_run d :
  getLatestPklVersion d =
    let d0 := logged (mkRecord LevelDebug "Fetching latest Pkl version from GitHub" []) d in
    match url_Parse releaseURL with
    | Some err => (inl (wrapError "failed to create request: " err), d0)
    | None =>
        match Do (httpClient d) releaseRequest with
        | (inl err, c) =>
            (inl (wrapError "failed to fetch latest release: " err),
             emit (HTTPClient_Do releaseRequest) (setClient c d0))
        | (inr resp, c) =>
            let d1 := emit (HTTPClient_Do releaseRequest) (setClient c d0) in
            if decide (StatusCode resp ≠ StatusOK) then
              (inl (errorString ("failed to fetch latest release: status code "
                                 +:+ pretty (StatusCode resp))),
               Close_Body d1)
            else
              match ReadAll (Body resp) with
              | inl err =>
                  (inl (wrapError "failed to read response body: " err), Close_Body d1)
              | inr body =>
                  match json.Unmarshal (string_of_list_byte body) (json.mkRelease "") with
                  | (_, Some e) =>
                      (inl (wrapError "failed to parse release data: " (jsonError e)),
                       Close_Body d1)
                  | (release, None) =>
                      (inr (json.TagName release),
                       Close_Body
                         (logged (mkRecord LevelDebug "Found latest Pkl version"
                                    [("version", json.TagName release)]) d1))
                  end
              end
        end
    end.
Proof.
  unfold getLatestPklVersion, NewRequest, releaseRequest. unfold_M. simpl.
  destruct (url_Parse releaseURL); [done|]. simpl.
  destruct (Do _ _) as [[err|resp] c]; [done|]. simpl.
  case_decide; [done|].
  destruct (ReadAll _); [done|]. simpl.
  by destruct (json.Unmarshal _ _) as [release [e|]].
Qed.

(** [install], one outcome after the other. *)
Lemma install_run path version resp d :
  install path version resp d =
    if decide (StatusCode resp ≠ StatusOK) then
      (inl (errorString ("failed to download binary: status code "
                         +:+ pretty (StatusCode resp))),
       Close_Body d)
    else
      match Create path (fs d) with
      | (inl err, fs1) =>
          (inl (wrapError "failed to create file: " err),
           Close_Body (emit (Fs_Create path) (setFs fs1 d)))
      | (inr out, fs1) =>
          let d1 := emit (Fs_Create path) (setFs fs1 d) in
          let '(w, fs2) := Write out (content (Body resp)) fs1 in
          let d2 := emit (File_Write (Name out) (content (Body resp))) (setFs fs2 d1) in
          let closed d' := Close_Body (Close_File out d') in
          match w, readErr (Body resp) with
          | inl err, _ | inr _, Some err =>
              (inl (wrapError "failed to write file: " err), closed d2)
          | inr _, None =>
              match Chmod path perm0755 fs2 with
              | (Some err, fs3) =>
                  (inl (wrapError "failed to make file executable: " err),
                   closed (emit (Fs_Chmod path perm0755) (setFs fs3 d2)))
              | (None, fs3) =>
                  (inr (),
                   closed (logged (mkRecord LevelInfo "Successfully downloaded Pkl"
                                     [("version", version); ("path", path)])
                             (emit (Fs_Chmod path perm0755) (setFs fs3 d2))))
              end
          end
      end.
Proof.
  unfold install. unfold_M.
  case_decide; [done|].
  destruct (Create path (fs d)) as [[err|out] fs1]; [done|]. simpl.
  destruct (Write out _ fs1) as [[err|n] fs2]; [done|]. simpl.
  destruct (readErr (Body resp)); [done|]. simpl.
  by destruct (Chmod path perm0755 fs2) as [[err|] fs3].
Qed.


(** [Download], stage by stage. *)
Lemma Download_run path d :
  Download path d =
    match getLatestPklVersion (started path d) with
    | (inl err, d1) => (inl (wrapError "failed to get latest version: " err), d1)
    | (inr version, d1) =>
        match getPklDownloadURL version d1 with
        | (inl err, d2) => (inl (wrapError "failed to get download URL: " err), d2)
        | (inr url, d2) =>
            let d3 := logged (mkRecord LevelDebug "Downloading Pkl binary"
                                [("version", version); ("url", url)]) d2 in
            match NewRequest "GET" url with
            | inl err =>
                (inl (wrapError "failed to create download request: " err), d3)
            | inr req =>
                match Do (httpClient d2) req with
                | (inl err, c) =>
                    (inl (wrapError "failed to download binary: " err),
                     emit (HTTPClient_Do req) (setClient c d3))
                | (inr resp, c) =>
                    install path version resp
                      (emit (HTTPClient_Do req) (setClient c d3))
                end
            end
        end
    end.
Proof.
  unfold Download, install, started. unfold_M.
  destruct (getLatestPklVersion _) as [[err|version] d1]; [done|].
  destruct (getPklDownloadURL version d1) as [[err|url] d2]; [done|]. simpl.
  destruct (NewRequest "GET" url) as [err|req]; [done|]. simpl.
  by destruct (Do (httpClient d2) req) as [[err|resp] c].
Qed.


(** ** Calls *)

Lemma calls_intro {A} (m : M A) d (evs : list Event) :
  trace (m d).2 = trace d ++ evs → calls m d = evs.
Proof. unfold calls. intros ->. apply drop_app_length. Qed.

(** A status error names its code. *)
Lemma status_code_inj (stage : string) (m n : Z) :
  errorString (stage +:+ pretty m) = errorString (stage +:+ pretty n) → m = n.
Proof.
  intros Heq. injection Heq as Heq.
  apply (inj (String.app stage)) in Heq. by apply (inj pretty).
Qed.

(** ** The version lookup *)

(** C3.  When the release index answers with a status other than 200,
    [getLatestPklVersion] fails with the error "failed to fetch latest
    release: status code <n>" for exactly that status n; [Download]
    returns it wrapped with "failed to get latest version: "; and the
    run consists of the one request to the release index and the close
    of its body: the runtime is not queried, no second request is sent
    and the filesystem is not touched. *)
Theorem Download_index_bad_status path d (resp : Response) (c : C) :
  url_Parse releaseURL = None →
  Do (httpClient d) releaseRequest = (inr resp, c) →
  StatusCode resp ≠ StatusOK →
  ∃ err,
    (getLatestPklVersion d).1 = inl err
    ∧ Error err = "failed to fetch latest release: status code "
                  +:+ pretty (StatusCode resp)
    ∧ (∀ n, Error err = "failed to fetch latest release: status code " +:+ pretty n →
            n = StatusCode resp)
    ∧ (Download path d).1 = inl (wrapError "failed to get latest version: " err)
    ∧ calls (Download path) d = [HTTPClient_Do releaseRequest; Body_Close]
    ∧ fs (Download path d).2 = fs d.
Proof.
  intros Hparse Hdo Hstatus.
  exists (errorString ("failed to fetch latest release: status code "
                       +:+ pretty (StatusCode resp))).
  assert (∀ d0, httpClient d0 = httpClient d →
            getLatestPklVersion d0 =
              (inl (errorString ("failed to fetch latest release: status code "
                                 +:+ pretty (StatusCode resp))),
               Close_Body (emit (HTTPClient_Do releaseRequest)
                 (setClient c
                    (logged (mkRecord LevelDebug
                               "Fetching latest Pkl version from GitHub" []) d0)))))
    as Hlookup.
  { intros d0 Hc. rewrite getLatestPklVersion_run, Hparse, Hc, Hdo. simpl.
    by case_decide. }
  split; [by rewrite Hlookup|]. split; [done|]. split.
  { simpl. intros n Heq. symmetry.
    apply (status_code_inj "failed to fetch latest release: status code ").
    by f_equal. }
  split; [|split].
  - by rewrite Download_run, Hlookup.
  - apply calls_intro. rewrite Download_run, Hlookup by done. simpl.
    by rewrite <- app_assoc.
  - by rewrite Download_run, Hlookup.
Qed.


(** C5, as the code has it.  When the release index answers with
    status 200 and its body is read in full, [getLatestPklVersion] fails
    with "failed to parse release data: " around the decoder's error
    exactly when [json.Unmarshal] rejects the body, that is unless the
    body is valid JSON and is [null] or an object whose [tag_name]
    members are strings or [null]; otherwise it returns the decoded
    tag.  In particular a valid object without a [tag_name] member, and
    [null], yield the empty version and no error. *)
Theorem getLatestPklVersion_decodes d (resp : Response) (c : C) (body : bytes) :
  url_Parse releaseURL = None →
  Do (httpClient d) releaseRequest = (inr resp, c) →
  StatusCode resp = StatusOK →
  ReadAll (Body resp) = inr body →
  let data := string_of_list_byte body in
  let u := json.Unmarshal data (json.mkRelease "") in
  (getLatestPklVersion d).1 =
    match u.2 with
    | Some e => inl (wrapError "failed to parse release data: " (jsonError e))
    | None => inr (json.TagName u.1)
    end
  ∧ (u.2 = None ↔ ∃ v, json.checkValid data = inr v ∧ json.accepted v = true)
  ∧ (∀ fields,
       json.checkValid data = inr (json.Object fields) →
       forallb (λ kv, negb (json.tagged kv)) fields = true →
       (getLatestPklVersion d).1 = inr "")
  ∧ (json.checkValid data = inr json.Null → (getLatestPklVersion d).1 = inr "").
Proof.
  intros Hparse Hdo Hstatus Hread data u.
  assert ((getLatestPklVersion d).1 =
            match u.2 with
            | Some e => inl (wrapError "failed to parse release data: " (jsonError e))
            | None => inr (json.TagName u.1)
            end) as Hrun.
  { rewrite getLatestPklVersion_run, Hparse, Hdo. simpl.
    case_decide; [done|]. rewrite Hread. subst u data.
    by destruct (json.Unmarshal _ _) as [release [e|]]. }
  split; [exact Hrun|]. split; [apply Unmarshal_no_error|]. split.
  - intros fields Hvalid Hfields. rewrite Hrun. subst u.
    unfold json.Unmarshal. rewrite Hvalid. simpl.
    by rewrite (object_untagged _ _ Hfields).
  - intros Hvalid. rewrite Hrun. subst u.
    unfold json.Unmarshal. by rewrite Hvalid.
Qed.

(** A successful lookup has sent the one request, closed its body and
    left filesystem and runtime alone. *)
Lemma getLatestPklVersion_inr d version d1 :
  getLatestPklVersion d = (inr version, d1) →
  fs d1 = fs d ∧ runtime d1 = runtime d
  ∧ trace d1 = trace d ++ [HTTPClient_Do releaseRequest; Body_Close].
Proof.
  rewrite getLatestPklVersion_run. simpl.
  destruct (url_Parse releaseURL); [done|].
  destruct (Do _ _) as [[err|resp] c]; [done|].
  case_decide; [done|].
  destruct (ReadAll _); [done|].
  destruct (json.Unmarshal _ _) as [release [e|]]; [done|].
  intros [= _ <-]. simpl. by rewrite <- app_assoc.
Qed.

(** ** The three installation steps *)

Lemma fs_Create_inr path d out d4 :
  fs_Create path d = (inr out, d4) →
  out = mkHandle path
  ∧ createErr (fs d) path = None
  ∧ fs d4 = setFiles (<[path := mkFile [] (createMode (fs d) (files (fs d) !! path))]>
                        (files (fs d))) (fs d)
  ∧ trace d4 = trace d ++ [Fs_Create path].
Proof.
  unfold fs_Create. destruct (Create path (fs d)) as [r fs1] eqn:Hcreate.
  intros [= -> <-]. by apply Create_inr in Hcreate as (? & -> & ->).
Qed.

Lemma fs_Create_inl path d err d4 :
  fs_Create path d = (inl err, d4) →
  createErr (fs d) path = Some err
  ∧ fs d4 = fs d
  ∧ trace d4 = trace d ++ [Fs_Create path].
Proof.
  unfold fs_Create. destruct (Create path (fs d)) as [r fs1] eqn:Hcreate.
  intros [= -> <-]. by apply Create_inl in Hcreate as (? & ->).
Qed.

(** [io.Copy] makes the one write; it returns no error only if all of
    the source was written and the source ended without error. *)
Lemma Copy_spec out src d r d5 :
  Copy out src d = (r, d5) →
  trace d5 = trace d ++ [File_Write (Name out) (content src)]
  ∧ ∃ q,
      q `prefix_of` content src
      ∧ fs d5 = setFiles (alter (λ fd, mkFile (data fd ++ q) (mode fd))
                            (Name out) (files (fs d))) (fs d)
      ∧ (∀ n, r = inr n → q = content src ∧ readErr src = None).
Proof.
  unfold Copy.
  destruct (Write_spec out (content src) (fs d)) as (q & Hfs & Hq & Hall).
  destruct (Write out (content src) (fs d)) as [w fs2]. simpl in Hfs, Hall.
  intros Heq. assert (d5 = emit (File_Write (Name out) (content src)) (setFs fs2 d)
                      ∧ (∀ n, r = inr n → w = inr n ∧ readErr src = None))
    as [-> Hr].
  { destruct w as [err|n], (readErr src); simplify_eq; split; try done;
      try (by intros ? [= <-]). }
  split; [done|]. exists q. split; [done|]. split; [by rewrite <- Hfs|].
  intros n Hn. destruct (Hr n Hn) as [-> ?]. split; [|done].
  by destruct (Hall n eq_refl).
Qed.

Lemma fs_Chmod_inl path m d err d6 :
  fs_Chmod path m d = (inl err, d6) →
  fs d6 = fs d ∧ trace d6 = trace d ++ [Fs_Chmod path m].
Proof.
  unfold fs_Chmod, Chmod.
  destruct (chmodErr (fs d) path); [by intros [= _ <-]|].
  destruct (files (fs d) !! path); [done|]. by intros [= _ <-].
Qed.

Lemma fs_Chmod_inr path m d d6 :
  fs_Chmod path m d = (inr (), d6) →
  chmodErr (fs d) path = None
  ∧ trace d6 = trace d ++ [Fs_Chmod path m]
  ∧ ∃ fd,
      files (fs d) !! path = Some fd
      ∧ fs d6 = setFiles
                  (<[path := mkFile (data fd)
                               (Z.lor (Z.land (mode fd) (Z.lnot chmodBits))
                                      (Z.land m chmodBits))]> (files (fs d)))
                  (fs d).
Proof.
  unfold fs_Chmod, Chmod.
  destruct (chmodErr (fs d) path); [done|].
  destruct (files (fs d) !! path) as [fd|]; [|done].
  intros [= <-]. split; [done|]. split; [done|]. by exists fd.
Qed.

(** [install] by the outcome of its steps. *)
Lemma install_create_fails path version resp d err d4 :
  StatusCode resp = StatusOK →
  fs_Create path d = (inl err, d4) →
  install path version resp d =
    (inl (wrapError "failed to create file: " err), Close_Body d4).
Proof.
  intros Hstatus Hcreate. unfold install.
  cbv [mbind bind orWrap defer]. case_decide; [done|]. by rewrite Hcreate.
Qed.

Lemma install_copy_fails path version resp d out d4 err d5 :
  StatusCode resp = StatusOK →
  fs_Create path d = (inr out, d4) →
  Copy out (Body resp) d4 = (inl err, d5) →
  install path version resp d =
    (inl (wrapError "failed to write file: " err), Close_Body (Close_File out d5)).
Proof.
  intros Hstatus Hcreate Hcopy. unfold install.
  cbv [mbind bind orWrap defer]. case_decide; [done|]. by rewrite Hcreate, Hcopy.
Qed.

Lemma install_chmod_fails path version resp d out d4 n d5 err d6 :
  StatusCode resp = StatusOK →
  fs_Create path d = (inr out, d4) →
  Copy out (Body resp) d4 = (inr n, d5) →
  fs_Chmod path perm0755 d5 = (inl err, d6) →
  install path version resp d =
    (inl (wrapError "failed to make file executable: " err),
     Close_Body (Close_File out d6)).
Proof.
  intros Hstatus Hcreate Hcopy Hchmod. unfold install.
  cbv [mbind bind orWrap defer]. case_decide; [done|].
  by rewrite Hcreate, Hcopy, Hchmod.
Qed.

Lemma install_succeeds path version resp d out d4 n d5 d6 :
  StatusCode resp = StatusOK →
  fs_Create path d = (inr out, d4) →
  Copy out (Body resp) d4 = (inr n, d5) →
  fs_Chmod path perm0755 d5 = (inr (), d6) →
  install path version resp d =
    (inr (),
     Close_Body (Close_File out
       (logged (mkRecord LevelInfo "Successfully downloaded Pkl"
                  [("version", version); ("path", path)]) d6))).
Proof.
  intros Hstatus Hcreate Hcopy Hchmod. unfold install.
  cbv [mbind bind orWrap defer]. case_decide; [done|].
  by rewrite Hcreate, Hcopy, Hchmod.
Qed.

(** ** Runs that reach the artifact response *)

Lemma fetched_Download path d version url req resp d' :
  fetched path d version url req resp d' →
  Download path d = install path version resp d'.
Proof.
  intros (d1 & d2 & c & Hlookup & Hresolve & Hreq & Hdo & ->).
  by rewrite Download_run, Hlookup, Hresolve, Hreq, Hdo.
Qed.

Lemma fetched_inv path d version url req resp d' :
  fetched path d version url req resp d' →
  fs d' = fs d
  ∧ trace d' = trace d ++ [HTTPClient_Do releaseRequest; Body_Close;
                           Runtime_GOOS; Runtime_GOARCH; HTTPClient_Do req]
  ∧ req = mkRequest "GET" url ∅
  ∧ ∃ filename,
      downloadMap !! platformKey (GOOS (runtime d), GOARCH (runtime d)) = Some filename
      ∧ url = (baseURL +:+ version +:+ "/") +:+ filename.
Proof.
  intros (d1 & d2 & c & Hlookup & Hresolve & Hreq & Hdo & ->).
  apply getLatestPklVersion_inr in Hlookup as (Hfs & Hrt & Htrace).
  rewrite getPklDownloadURL_run, Hrt in Hresolve. simpl in Hresolve.
  destruct (downloadMap !! _) as [filename|] eqn:Hkey; [|done].
  injection Hresolve as <- <-. simpl.
  split; [done|]. split.
  { rewrite Htrace. simpl. by rewrite <- !app_assoc. }
  split; [|by exists filename].
  unfold NewRequest in Hreq. destruct (url_Parse _); by simplify_eq.
Qed.


(** C7.  When the artifact host answers with a status other than 200,
    [Download] fails with the error "failed to download binary: status
    code <n>" for exactly that status n, and the run makes no call on
    the filesystem: nothing is created, truncated or written. *)
Theorem Download_artifact_bad_status path d version url req resp d3 :
  fetched path d version url req resp d3 →
  StatusCode resp ≠ StatusOK →
  ∃ err,
    (Download path d).1 = inl err
    ∧ Error err = "failed to download binary: status code "
                  +:+ pretty (StatusCode resp)
    ∧ (∀ n, Error err = "failed to download binary: status code " +:+ pretty n →
            n = StatusCode resp)
    ∧ fs (Download path d).2 = fs d
    ∧ calls (Download path) d =
        [HTTPClient_Do releaseRequest; Body_Close; Runtime_GOOS; Runtime_GOARCH;
         HTTPClient_Do req; Body_Close]
    ∧ filter isFsCall (calls (Download path) d) = [].
Proof.
  intros Hf Hstatus.
  destruct (fetched_inv _ _ _ _ _ _ _ Hf) as (Hfs & Htrace & _).
  assert (Download path d =
            (inl (errorString ("failed to download binary: status code "
                               +:+ pretty (StatusCode resp))),
             Close_Body d3)) as Hrun.
  { rewrite (fetched_Download _ _ _ _ _ _ _ Hf), install_run. by case_decide. }
  assert (calls (Download path) d =
            [HTTPClient_Do releaseRequest; Body_Close; Runtime_GOOS; Runtime_GOARCH;
             HTTPClient_Do req; Body_Close]) as Hcalls.
  { apply calls_intro. rewrite Hrun. simpl. rewrite Htrace. by rewrite <- app_assoc. }
  eexists. split; [by rewrite Hrun|]. split; [done|]. split.
  { simpl. intros n Heq. symmetry.
    apply (status_code_inj "failed to download binary: status code ").
    by f_equal. }
  split; [by rewrite Hrun|]. split; [done|]. by rewrite Hcalls.
Qed.


(** After [Create] and [io.Copy] the file holds what was written of the
    source, under the mode [Create] gave it. *)
Lemma created_and_copied path d out d4 src r d5 :
  fs_Create path d = (inr out, d4) →
  Copy out src d4 = (r, d5) →
  out = mkHandle path
  ∧ trace d5 = trace d ++ [Fs_Create path; File_Write path (content src)]
  ∧ ∃ q,
      q `prefix_of` content src
      ∧ fs d5 = setFiles
                  (<[path := mkFile q (createMode (fs d) (files (fs d) !! path))]>
                     (files (fs d))) (fs d)
      ∧ (∀ n, r = inr n → q = content src ∧ readErr src = None).
Proof.
  intros (-> & _ & Hfs4 & Htrace4)%fs_Create_inr
         (Htrace5 & q & Hq & Hfs5 & Hall)%Copy_spec.
  split; [done|]. split.
  { rewrite Htrace5, Htrace4. simpl. by rewrite <- app_assoc. }
  exists q. split; [done|]. split; [|done].
  rewrite Hfs5, Hfs4. simpl. unfold setFiles. simpl.
  by rewrite alter_insert_eq.
Qed.




(** C8.  In a run that holds the artifact response with status 200,
    the installation steps the run makes are, in order, a beginning of
    create, write, chmod, and creation is always attempted.  If creation
    fails, [Download] returns that error wrapped with "failed to create
    file: ", makes no further step and leaves the filesystem as it was.
    If the copy fails, [Download] returns that error wrapped with "failed
    to write file: ", does not call [Chmod], and the file keeps the mode
    [Create] gave it.  Otherwise all three steps are made. *)
Theorem Download_install_order path d version url req resp d3 :
  fetched path d version url req resp d3 →
  StatusCode resp = StatusOK →
  let steps := filter isStep (calls (Download path) d) in
  steps `prefix_of` installSteps path (content (Body resp))
  ∧ Fs_Create path ∈ steps
  ∧ (∀ err d4,
       fs_Create path d3 = (inl err, d4) →
       (Download path d).1 = inl (wrapError "failed to create file: " err)
       ∧ steps = [Fs_Create path]
       ∧ fs (Download path d).2 = fs d)
  ∧ (∀ out d4 err d5,
       fs_Create path d3 = (inr out, d4) →
       Copy out (Body resp) d4 = (inl err, d5) →
       (Download path d).1 = inl (wrapError "failed to write file: " err)
       ∧ steps = [Fs_Create path; File_Write path (content (Body resp))]
       ∧ mode <$> files (fs (Download path d).2) !! path =
           Some (createMode (fs d) (files (fs d) !! path)))
  ∧ (∀ out d4 n d5,
       fs_Create path d3 = (inr out, d4) →
       Copy out (Body resp) d4 = (inr n, d5) →
       steps = installSteps path (content (Body resp))).
Proof.
  intros Hf Hstatus steps. subst steps.
  destruct (fetched_inv _ _ _ _ _ _ _ Hf) as (Hfs & Htrace & _).
  unfold calls. rewrite (fetched_Download _ _ _ _ _ _ _ Hf).
  destruct (fs_Create path d3) as [[err|out] d4] eqn:Hcreate.
  { rewrite (install_create_fails _ _ _ _ _ _ Hstatus Hcreate).
    apply fs_Create_inl in Hcreate as (_ & Hfs4 & Htrace4). simpl.
    rewrite Htrace4, Htrace, <- !app_assoc, drop_app_length. simpl.
    assert (filter isStep [HTTPClient_Do releaseRequest; Body_Close; Runtime_GOOS;
                           Runtime_GOARCH; HTTPClient_Do req; Fs_Create path;
                           Body_Close] = [Fs_Create path]) as -> by done.
    split; [by exists [File_Write path (content (Body resp)); Fs_Chmod path perm0755]|].
    split; [by apply list_elem_of_singleton|].
    split; [|split; by intros ???? [=]].
    intros ?? [= <- <-]. by rewrite Hfs4, Hfs. }
  destruct (Copy out (Body resp) d4) as [[err|n] d5] eqn:Hcopy.
  { rewrite (install_copy_fails _ _ _ _ _ _ _ _ Hstatus Hcreate Hcopy).
    destruct (created_and_copied _ _ _ _ _ _ _ Hcreate Hcopy)
      as (-> & Htrace5 & q & _ & Hfs5 & _). simpl.
    rewrite Htrace5, Htrace, <- !app_assoc, drop_app_length. simpl.
    assert (filter isStep [HTTPClient_Do releaseRequest; Body_Close; Runtime_GOOS;
                           Runtime_GOARCH; HTTPClient_Do req; Fs_Create path;
                           File_Write path (content (Body resp));
                           File_Close path; Body_Close]
            = [Fs_Create path; File_Write path (content (Body resp))]) as -> by done.
    split; [by exists [Fs_Chmod path perm0755]|].
    split; [apply list_elem_of_here|].
    split; [by intros ?? [=]|].
    split; [|by intros ???? [= <- <-] Hc; rewrite Hcopy in Hc].
    intros ???? [= <- <-] Hc. rewrite Hcopy in Hc. injection Hc as <- <-.
    split; [done|]. split; [done|].
    rewrite Hfs5. simpl. rewrite lookup_insert_eq. simpl. by rewrite Hfs. }
  assert (filter isStep
            (drop (length (trace d)) (trace (install path version resp d3).2))
          = installSteps path (content (Body resp))) as ->.
  { destruct (created_and_copied _ _ _ _ _ _ _ Hcreate Hcopy)
      as (-> & Htrace5 & _).
    destruct (fs_Chmod path perm0755 d5) as [[err|[]] d6] eqn:Hchmod.
    - rewrite (install_chmod_fails _ _ _ _ _ _ _ _ _ _ Hstatus Hcreate Hcopy Hchmod).
      apply fs_Chmod_inl in Hchmod as (_ & Htrace6). simpl.
      by rewrite Htrace6, Htrace5, Htrace, <- !app_assoc, drop_app_length.
    - rewrite (install_succeeds _ _ _ _ _ _ _ _ _ Hstatus Hcreate Hcopy Hchmod).
      apply fs_Chmod_inr in Hchmod as (_ & Htrace6 & _). simpl.
      by rewrite Htrace6, Htrace5, Htrace, <- !app_assoc, drop_app_length. }
  split; [done|]. split; [apply list_elem_of_here|].
  split; [by intros ?? [=]|].
  split; [by intros ???? [= <- <-] Hc; rewrite Hcopy in Hc|]. done.
Qed.

(** C10.  If creation and copy succeed and [Chmod] then fails,
    [Download] returns that error wrapped with "failed to make file
    executable: "; the file stays at the target path with the whole body
    as its contents and the mode [Create] gave it; after the failed
    [Chmod] the run only closes the file and the response body. *)
Theorem Download_chmod_fails path d version url req resp d3 out d4 n d5 err d6 :
  fetched path d version url req resp d3 →
  StatusCode resp = StatusOK →
  fs_Create path d3 = (inr out, d4) →
  Copy out (Body resp) d4 = (inr n, d5) →
  fs_Chmod path perm0755 d5 = (inl err, d6) →
  (Download path d).1 = inl (wrapError "failed to make file executable: " err)
  ∧ Error (wrapError "failed to make file executable: " err) =
      "failed to make file executable: " +:+ Error err
  ∧ files (fs (Download path d).2) !! path =
      Some (mkFile (content (Body resp))
              (createMode (fs d) (files (fs d) !! path)))
  ∧ calls (Download path) d =
      [HTTPClient_Do releaseRequest; Body_Close; Runtime_GOOS; Runtime_GOARCH;
       HTTPClient_Do req;
       Fs_Create path; File_Write path (content (Body resp)); Fs_Chmod path perm0755;
       File_Close path; Body_Close].
Proof.
  intros Hf Hstatus Hcreate Hcopy Hchmod.
  destruct (fetched_inv _ _ _ _ _ _ _ Hf) as (Hfs & Htrace & _).
  unfold calls. rewrite (fetched_Download _ _ _ _ _ _ _ Hf).
  rewrite (install_chmod_fails _ _ _ _ _ _ _ _ _ _ Hstatus Hcreate Hcopy Hchmod).
  destruct (created_and_copied _ _ _ _ _ _ _ Hcreate Hcopy)
    as (-> & Htrace5 & q & _ & Hfs5 & Hall).
  destruct (Hall n eq_refl) as [-> _].
  apply fs_Chmod_inl in Hchmod as (Hfs6 & Htrace6). simpl.
  split; [done|]. split; [done|]. split.
  - rewrite Hfs6, Hfs5. simpl. by rewrite lookup_insert_eq, Hfs.
  - by rewrite Htrace6, Htrace5, Htrace, <- !app_assoc, drop_app_length.
Qed.


(** ** Errors *)

Lemma install_staged path version resp d err :
  (install path version resp d).1 = inl err → staged err.
Proof.
  rewrite install_run. case_decide.
  { intros [= <-]. exists "failed to download binary". eexists.
    split; [unfold stages; by repeat constructor|reflexivity]. }
  destruct (Create path (fs d)) as [[e|out] fs1].
  { intros [= <-]. exists "failed to create file", (Error e).
    split; [unfold stages; by repeat constructor|reflexivity]. }
  simpl. destruct (Write out _ fs1) as [[e|n] fs2]; simpl.
  { intros [= <-]. exists "failed to write file", (Error e).
    split; [unfold stages; by repeat constructor|reflexivity]. }
  destruct (readErr (Body resp)) as [e|].
  { intros [= <-]. exists "failed to write file", (Error e).
    split; [unfold stages; by repeat constructor|reflexivity]. }
  destruct (Chmod path perm0755 fs2) as [[e|] fs3]; [|done].
  intros [= <-]. exists "failed to make file executable", (Error e).
  split; [unfold stages; by repeat constructor|reflexivity].
Qed.

(** C6.  A failure of the version lookup comes back from [Download]
    wrapped with "failed to get latest version", a failure of the
    resolver with "failed to get download URL", a failure of the
    artifact request with "failed to download binary": the returned
    error unwraps to the component's error and its message is the
    context, ": " and the component's message.  And every error
    [Download] returns has a message of that form, the context being
    one of the seven stages. *)
Theorem Download_error_wrapping path d :
  (∀ err d1,
     getLatestPklVersion (started path d) = (inl err, d1) →
     ∃ e, Download path d = (inl e, d1)
          ∧ Unwrap e = Some err
          ∧ Error e = "failed to get latest version" +:+ ": " +:+ Error err)
  ∧ (∀ version d1 err d2,
       getLatestPklVersion (started path d) = (inr version, d1) →
       getPklDownloadURL version d1 = (inl err, d2) →
       ∃ e, Download path d = (inl e, d2)
            ∧ Unwrap e = Some err
            ∧ Error e = "failed to get download URL" +:+ ": " +:+ Error err)
  ∧ (∀ version d1 url d2 req err c,
       getLatestPklVersion (started path d) = (inr version, d1) →
       getPklDownloadURL version d1 = (inr url, d2) →
       NewRequest "GET" url = inr req →
       Do (httpClient d2) req = (inl err, c) →
       ∃ e, (Download path d).1 = inl e
            ∧ Unwrap e = Some err
            ∧ Error e = "failed to download binary" +:+ ": " +:+ Error err)
  ∧ (∀ e, (Download path d).1 = inl e → staged e).
Proof.
  split; [|split; [|split]].
  - intros err d1 Hlookup. rewrite Download_run, Hlookup. by eexists.
  - intros version d1 err d2 Hlookup Hresolve.
    rewrite Download_run, Hlookup, Hresolve. by eexists.
  - intros version d1 url d2 req err c Hlookup Hresolve Hreq Hdo.
    rewrite Download_run, Hlookup, Hresolve, Hreq, Hdo. by eexists.
  - intros e. rewrite Download_run.
    destruct (getLatestPklVersion _) as [[err|version] d1].
    { intros [= <-]. exists "failed to get latest version", (Error err).
      split; [unfold stages; by repeat constructor|reflexivity]. }
    destruct (getPklDownloadURL version d1) as [[err|url] d2].
    { intros [= <-]. exists "failed to get download URL", (Error err).
      split; [unfold stages; by repeat constructor|reflexivity]. }
    simpl. destruct (NewRequest "GET" url) as [err|req].
    { intros [= <-]. exists "failed to create download request", (Error err).
      split; [unfold stages; by repeat constructor|reflexivity]. }
    destruct (Do (httpClient d2) req) as [[err|resp] c].
    { intros [= <-]. exists "failed to download binary", (Error err).
      split; [unfold stages; by repeat constructor|reflexivity]. }
    apply install_staged.
Qed.


(** ** Requests *)

Lemma requests_app (l1 l2 : list Event) :
  requests (l1 ++ l2) = requests l1 ++ requests l2.
Proof. apply omap_app. Qed.

Lemma artifact_url_not_index (version filename : string) :
  (baseURL +:+ version +:+ "/") +:+ filename ≠ releaseURL.
Proof. intros Heq. by vm_compute in Heq. Qed.

Lemma getLatestPklVersion_requests d :
  url_Parse releaseURL = None →
  ∃ evs, trace (getLatestPklVersion d).2 = trace d ++ evs
         ∧ requests evs = [releaseRequest].
Proof.
  intros Hparse. rewrite getLatestPklVersion_run, Hparse. simpl.
  destruct (Do _ _) as [[err|resp] c].
  { by eexists. }
  case_decide.
  { eexists. split; [simpl; rewrite <- ?app_assoc; reflexivity|done]. }
  destruct (ReadAll _).
  { eexists. split; [simpl; rewrite <- ?app_assoc; reflexivity|done]. }
  destruct (json.Unmarshal _ _) as [release [e|]];
    eexists; (split; [simpl; rewrite <- ?app_assoc; reflexivity|done]).
Qed.

Lemma install_requests path version resp d :
  ∃ evs, trace (install path version resp d).2 = trace d ++ evs
         ∧ requests evs = [].
Proof.
  rewrite install_run. case_decide.
  { by eexists. }
  destruct (Create path (fs d)) as [[e|out] fs1].
  { eexists. split; [simpl; rewrite <- ?app_assoc; reflexivity|done]. }
  simpl. destruct (Write out _ fs1) as [[e|n] fs2]; simpl.
  { eexists. split; [simpl; rewrite <- ?app_assoc; reflexivity|done]. }
  destruct (readErr (Body resp)) as [e|].
  { eexists. split; [simpl; rewrite <- ?app_assoc; reflexivity|done]. }
  destruct (Chmod path perm0755 fs2) as [[e|] fs3];
    eexists; (split; [simpl; rewrite <- ?app_assoc; reflexivity|done]).
Qed.

(** C9.  A run of [Download] sends the one request to the release
    index and after it at most one more, to the artifact URL, which is
    not the index; no request is sent twice.  A request that fails is
    the last one of the run, and [Download] returns an error; a run
    that gets the artifact response has sent just the two requests. *)
Theorem Download_requests path d :
  url_Parse releaseURL = None →
  let reqs := requests (calls (Download path) d) in
  (reqs = [releaseRequest]
   ∨ ∃ version filename,
       reqs = [releaseRequest;
               mkRequest "GET" ((baseURL +:+ version +:+ "/") +:+ filename) ∅])
  ∧ length (filter (λ r, URL r = releaseURL) reqs) = 1%nat
  ∧ (length (filter (λ r, URL r ≠ releaseURL) reqs) ≤ 1)%nat
  ∧ (∀ err c,
       Do (httpClient d) releaseRequest = (inl err, c) →
       reqs = [releaseRequest] ∧ ∃ e, (Download path d).1 = inl e)
  ∧ (∀ version d1 url d2 req err c,
       getLatestPklVersion (started path d) = (inr version, d1) →
       getPklDownloadURL version d1 = (inr url, d2) →
       NewRequest "GET" url = inr req →
       Do (httpClient d2) req = (inl err, c) →
       reqs = [releaseRequest; req] ∧ ∃ e, (Download path d).1 = inl e)
  ∧ (∀ version url req resp d3,
       fetched path d version url req resp d3 →
       reqs = [releaseRequest; req]).
Proof.
  intros Hparse reqs.
  assert (reqs = [releaseRequest]
          ∨ ∃ version filename,
              reqs = [releaseRequest;
                      mkRequest "GET" ((baseURL +:+ version +:+ "/") +:+ filename) ∅])
    as Hreqs.
  { subst reqs. unfold calls. rewrite Download_run.
    destruct (getLatestPklVersion_requests (started path d) Hparse)
      as (evs1 & Htrace1 & Hreqs1).
    destruct (getLatestPklVersion _) as [[err|version] d1]; simpl in Htrace1.
    { left. simpl. by rewrite Htrace1, drop_app_length. }
    rewrite getPklDownloadURL_run.
    destruct (downloadMap !! _) as [filename|].
    2:{ left. simpl. rewrite Htrace1, <- !app_assoc, drop_app_length.
        rewrite requests_app, Hreqs1. done. }
    simpl. unfold NewRequest.
    destruct (url_Parse ((baseURL +:+ version +:+ "/") +:+ filename)).
    { left. simpl. rewrite Htrace1, <- !app_assoc, drop_app_length.
      rewrite requests_app, Hreqs1. done. }
    right. exists version, filename.
    destruct (Do _ _) as [[err|resp] c].
    { simpl. rewrite Htrace1, <- !app_assoc, drop_app_length.
      rewrite requests_app, Hreqs1. done. }
    match goal with
    | |- context [install ?p ?v ?r ?d0] =>
        destruct (install_requests p v r d0) as (evs2 & -> & Hreqs2)
    end.
    simpl. rewrite Htrace1, <- !app_assoc, drop_app_length.
    rewrite !requests_app, Hreqs1. simpl. by rewrite Hreqs2. }
  split; [exact Hreqs|].
  split; [|split; [|split; [|split]]].
  - destruct Hreqs as [->|(version & filename & ->)]; [done|].
    rewrite filter_cons_True by done. rewrite filter_cons_False; [done|].
    apply artifact_url_not_index.
  - destruct Hreqs as [->|(version & filename & ->)].
    + rewrite filter_cons_False; [simpl; lia|]. by intros Hne.
    + rewrite filter_cons_False by (by intros Hne).
      rewrite filter_cons_True by apply artifact_url_not_index. simpl. lia.
  - intros err c Hdo. subst reqs. unfold calls. rewrite Download_run.
    rewrite getLatestPklVersion_run, Hparse. simpl. rewrite Hdo. simpl.
    rewrite drop_app_length. split; [done|]. by eexists.
  - intros version d1 url d2 req err c Hlookup Hresolve Hreq Hdo.
    subst reqs. unfold calls.
    rewrite Download_run, Hlookup, Hresolve, Hreq, Hdo.
    apply getLatestPklVersion_inr in Hlookup as (_ & _ & Htrace1).
    rewrite getPklDownloadURL_run in Hresolve.
    destruct (downloadMap !! _); [|done]. injection Hresolve as _ <-.
    simpl. rewrite Htrace1. simpl.
    rewrite <- !app_assoc, drop_app_length. split; [done|]. by eexists.
  - intros version url req resp d3 Hf. subst reqs. unfold calls.
    destruct (fetched_inv _ _ _ _ _ _ _ Hf) as (_ & Htrace & _).
    rewrite (fetched_Download _ _ _ _ _ _ _ Hf).
    destruct (install_requests path version resp d3) as (evs2 & -> & Hreqs2).
    rewrite Htrace, <- !app_assoc, drop_app_length.
    change (requests ([HTTPClient_Do releaseRequest; Body_Close; Runtime_GOOS;
                       Runtime_GOARCH; HTTPClient_Do req] ++ evs2)
            = [releaseRequest; req]).
    by rewrite requests_app, Hreqs2.
Qed.

End Runs.

(** * The decoder on the release bodies of the tests *)







(** * More about runs *)

Section Frames.

Context {lib : Library} {C R : Type} {client : HTTPClient C} {rt : Runtime R}.

Implicit Types d : PklDownloader (C := C) (R := R).

(** The version lookup leaves filesystem and runtime alone, whatever its
    outcome. *)
Lemma getLatestPklVersion_frame d :
  fs (getLatestPklVersion d).2 = fs d
  ∧ runtime (getLatestPklVersion d).2 = runtime d.
Proof.
  rewrite getLatestPklVersion_run. simpl.
  destruct (url_Parse releaseURL); [done|].
  destruct (Do _ _) as [[err|resp] c]; [done|].
  case_decide; [done|].
  destruct (ReadAll _); [done|].
  by destruct (json.Unmarshal _ _) as [release [e|]].
Qed.








(** X3.  Every run begins its log with "Starting Pkl download" and the
    path, and logs "Successfully downloaded Pkl" exactly when it returns
    no error. *)
Theorem Download_logs_success path d :
  ∃ recs,
    logger (Download path d).2 =
      logger d ++ mkRecord LevelInfo "Starting Pkl download" [("path", path)] :: recs
    ∧ ((Download path d).1 = inr ()
       ↔ "Successfully downloaded Pkl" ∈ message <$> recs).
Proof.
  rewrite Download_run, getLatestPklVersion_run. simpl.
  destruct (url_Parse releaseURL).
  { eexists. split; [simpl; rewrite <- ?app_assoc; reflexivity|]. simpl.
    split; [done|]. rewrite !elem_of_cons, elem_of_nil. naive_solver. }
  destruct (Do (httpClient d) releaseRequest) as [[err|resp0] c0].
  { eexists. split; [simpl; rewrite <- ?app_assoc; reflexivity|]. simpl.
    split; [done|]. rewrite !elem_of_cons, elem_of_nil. naive_solver. }
  case_decide.
  { eexists. split; [simpl; rewrite <- ?app_assoc; reflexivity|]. simpl.
    split; [done|]. rewrite !elem_of_cons, elem_of_nil. naive_solver. }
  destruct (ReadAll _) as [err|body0].
  { eexists. split; [simpl; rewrite <- ?app_assoc; reflexivity|]. simpl.
    split; [done|]. rewrite !elem_of_cons, elem_of_nil. naive_solver. }
  destruct (json.Unmarshal _ _) as [release [e|]].
  { eexists. split; [simpl; rewrite <- ?app_assoc; reflexivity|]. simpl.
    split; [done|]. rewrite !elem_of_cons, elem_of_nil. naive_solver. }
  rewrite getPklDownloadURL_run. simpl.
  destruct (downloadMap !! _) as [filename|]; last first.
  { eexists. split; [simpl; rewrite <- ?app_assoc; reflexivity|]. simpl.
    split; [done|]. rewrite !elem_of_cons, elem_of_nil. naive_solver. }
  simpl. unfold NewRequest.
  match goal with |- context [url_Parse ?u] => destruct (url_Parse u) end.
  { eexists. split; [simpl; rewrite <- ?app_assoc; reflexivity|]. simpl.
    split; [done|]. rewrite !elem_of_cons, elem_of_nil. naive_solver. }
  match goal with
  | |- context [Do ?c (mkRequest "GET" ?u ∅)] =>
      destruct (Do c (mkRequest "GET" u ∅)) as [[err|resp] c1]
  end.
  { eexists. split; [simpl; rewrite <- ?app_assoc; reflexivity|]. simpl.
    split; [done|]. rewrite !elem_of_cons, elem_of_nil. naive_solver. }
  rewrite install_run. case_decide.
  { eexists. split; [simpl; rewrite <- ?app_assoc; reflexivity|]. simpl.
    split; [done|]. rewrite !elem_of_cons, elem_of_nil. naive_solver. }
  match goal with
  | |- context [Create path ?f] => destruct (Create path f) as [[err|out] fs1]
  end.
  { eexists. split; [simpl; rewrite <- ?app_assoc; reflexivity|]. simpl.
    split; [done|]. rewrite !elem_of_cons, elem_of_nil. naive_solver. }
  simpl. destruct (Write _ _ fs1) as [[err|n] fs2]; simpl.
  { eexists. split; [simpl; rewrite <- ?app_assoc; reflexivity|]. simpl.
    split; [done|]. rewrite !elem_of_cons, elem_of_nil. naive_solver. }
  destruct (readErr (Body resp)).
  { eexists. split; [simpl; rewrite <- ?app_assoc; reflexivity|]. simpl.
    split; [done|]. rewrite !elem_of_cons, elem_of_nil. naive_solver. }
  destruct (Chmod path perm0755 fs2) as [[err|] fs3].
  { eexists. split; [simpl; rewrite <- ?app_assoc; reflexivity|]. simpl.
    split; [done|]. rewrite !elem_of_cons, elem_of_nil. naive_solver. }
  eexists. split; [simpl; rewrite <- ?app_assoc; reflexivity|]. simpl.
  split; [|done]. intros _. rewrite !elem_of_cons. naive_solver.
Qed.


(** Once the lookup has returned a version on a supported platform and
    the artifact URL parses, the run sends the request for that URL. *)
Lemma Download_requests_resolved path d version d1 filename :
  getLatestPklVersion (started path d) = (inr version, d1) →
  downloadMap !! platformKey (GOOS (runtime d), GOARCH (runtime d)) = Some filename →
  url_Parse ((baseURL +:+ version +:+ "/") +:+ filename) = None →
  requests (calls (Download path) d) =
    [releaseRequest; mkRequest "GET" ((baseURL +:+ version +:+ "/") +:+ filename) ∅].
Proof.
  intros Hlookup Hkey Hparse. unfold calls.
  rewrite Download_run, Hlookup.
  apply getLatestPklVersion_inr in Hlookup as (_ & Hrt & Htrace1).
  rewrite getPklDownloadURL_run, Hrt. simpl. rewrite Hkey. simpl.
  unfold NewRequest. rewrite Hparse.
  destruct (Do _ _) as [[err|resp] c].
  { simpl. rewrite Htrace1. simpl. by rewrite <- !app_assoc, drop_app_length. }
  match goal with
  | |- context [install ?p ?v ?r ?d0] =>
      destruct (install_requests p v r d0) as (evs2 & -> & Hreqs2)
  end.
  simpl. rewrite Htrace1. simpl. rewrite <- !app_assoc, drop_app_length.
  change (requests ([HTTPClient_Do releaseRequest; Body_Close; Runtime_GOOS;
                     Runtime_GOARCH;
                     HTTPClient_Do
                       (mkRequest "GET" ((baseURL +:+ version +:+ "/") +:+ filename) ∅)]
                    ++ evs2) = [releaseRequest;
                                mkRequest "GET" ((baseURL +:+ version +:+ "/") +:+ filename) ∅]).
  by rewrite requests_app, Hreqs2.
Qed.


(** X5.  A release body without a [tag_name] member is not caught later
    either: when the index answers 200 with a valid object that has no
    such member, a run on a supported platform goes on to request the
    base URL, an empty version, a slash and the filename. *)
Theorem Download_requests_without_tag path d (resp : Response) (c : C)
    (body : bytes) (fields : list (string * json.value))
    (os arch filename : string) :
  url_Parse releaseURL = None →
  Do (httpClient d) releaseRequest = (inr resp, c) →
  StatusCode resp = StatusOK →
  ReadAll (Body resp) = inr body →
  json.checkValid (string_of_list_byte body) = inr (json.Object fields) →
  forallb (λ kv, negb (json.tagged kv)) fields = true →
  (os, arch, filename) ∈ compatibilityTable →
  GOOS (runtime d) = os →
  GOARCH (runtime d) = arch →
  url_Parse (baseURL +:+ "/" +:+ filename) = None →
  requests (calls (Download path) d) =
    [releaseRequest; mkRequest "GET" (baseURL +:+ "/" +:+ filename) ∅].
Proof.
  intros Hparse Hdo Hstatus Hread Hvalid Hfields Hin Hos Harch Hurl.
  assert ((getLatestPklVersion (started path d)).1 = inr "") as Hlookup.
  { rewrite getLatestPklVersion_run, Hparse. simpl. rewrite Hdo. simpl.
    case_decide; [done|]. rewrite Hread.
    unfold json.Unmarshal. rewrite Hvalid. simpl.
    by rewrite (object_untagged _ _ Hfields). }
  destruct (getLatestPklVersion (started path d)) as [r d1] eqn:Hrun.
  simpl in Hlookup. subst r.
  assert ((baseURL +:+ "" +:+ "/") +:+ filename = baseURL +:+ "/" +:+ filename) as Heq
    by (by rewrite string_app_assoc).
  rewrite <- Heq. rewrite <- Heq in Hurl.
  apply (Download_requests_resolved _ _ _ _ _ Hrun); [|done].
  rewrite Hos, Harch. by apply downloadMap_lookup.
Qed.

(** X6.  When a run that holds the artifact response returns an error,
    the filesystem is as it was, or the file at the target path holds a
    beginning of the body, in order, under the mode [Create] gave it:
    nothing but bytes of the body is ever written, and [Chmod] has not
    changed the mode. *)
Theorem Download_failure_leaves_prefix path d version url req resp d3 (e : error) :
  fetched path d version url req resp d3 →
  (Download path d).1 = inl e →
  fs (Download path d).2 = fs d
  ∨ ∃ q,
      q `prefix_of` content (Body resp)
      ∧ files (fs (Download path d).2) =
          <[path := mkFile q (createMode (fs d) (files (fs d) !! path))]> (files (fs d)).
Proof.
  intros Hf. destruct (fetched_inv _ _ _ _ _ _ _ Hf) as (Hfs & _).
  rewrite (fetched_Download _ _ _ _ _ _ _ Hf).
  destruct (decide (StatusCode resp = StatusOK)) as [Hstatus|Hstatus]; last first.
  { rewrite install_run. case_decide; [|done]. simpl. by left. }
  destruct (fs_Create path d3) as [[err|out] d4] eqn:Hcreate.
  { rewrite (install_create_fails _ _ _ _ _ _ Hstatus Hcreate).
    apply fs_Create_inl in Hcreate as (_ & Hfs4 & _). simpl.
    left. by rewrite Hfs4. }
  destruct (Copy out (Body resp) d4) as [w d5] eqn:Hcopy.
  destruct (created_and_copied _ _ _ _ _ _ _ Hcreate Hcopy)
    as (-> & _ & q & Hq & Hfs5 & _).
  rewrite Hfs in Hfs5.
  destruct w as [err|n].
  { rewrite (install_copy_fails _ _ _ _ _ _ _ _ Hstatus Hcreate Hcopy). simpl.
    intros _. right. exists q. by rewrite Hfs5. }
  destruct (fs_Chmod path perm0755 d5) as [[err|[]] d6] eqn:Hchmod.
  - rewrite (install_chmod_fails _ _ _ _ _ _ _ _ _ _ Hstatus Hcreate Hcopy Hchmod).
    apply fs_Chmod_inl in Hchmod as (Hfs6 & _). simpl.
    intros _. right. exists q. by rewrite Hfs6, Hfs5.
  - by rewrite (install_succeeds _ _ _ _ _ _ _ _ _ Hstatus Hcreate Hcopy Hchmod).
Qed.

End Frames.

(** No filename of the compatibility table serves two platforms. *)
Lemma compatibilityTable_filenames (o a o' a' f : string) :
  (o, a, f) ∈ compatibilityTable → (o', a', f) ∈ compatibilityTable →
  o = o' ∧ a = a'.
Proof.
  unfold compatibilityTable. rewrite !elem_of_cons, !elem_of_nil.
  intros [H1|[H1|[H1|[H1|[H1|[]]]]]]; injection H1 as -> -> ->;
    intros [H2|[H2|[H2|[H2|[H2|[]]]]]]; by simplify_eq.
Qed.

(** X7.  On the supported platforms the resolver is one to one: for one
    version, two platforms that resolve to the same URL are the same
    platform. *)
Theorem getPklDownloadURL_injective {C R : Type} {rt : Runtime R}
    (d d' : PklDownloader (C := C) (R := R)) (version url : string) :
  supported (GOOS (runtime d), GOARCH (runtime d)) →
  supported (GOOS (runtime d'), GOARCH (runtime d')) →
  (getPklDownloadURL version d).1 = inr url →
  (getPklDownloadURL version d').1 = inr url →
  GOOS (runtime d) = GOOS (runtime d') ∧ GOARCH (runtime d) = GOARCH (runtime d').
Proof.
  unfold supported.
  intros ([[o a] f] & Hp & Hin)%list_elem_of_fmap.
  intros ([[o' a'] f'] & Hp' & Hin')%list_elem_of_fmap.
  simpl in Hp, Hp'. injection Hp as Ho Ha. injection Hp' as Ho' Ha'.
  rewrite !getPklDownloadURL_run, Ho, Ha, Ho', Ha'.
  rewrite (downloadMap_lookup _ _ _ Hin), (downloadMap_lookup _ _ _ Hin').
  simpl. intros [= <-] [= Heq]. apply (inj (String.app _)) in Heq. subst f'.
  exact (compatibilityTable_filenames _ _ _ _ _ Hin Hin').
Qed.

(** * The constructor *)

Section OptionsProofs.

Context {N D C R : Type}.

(** X8.  [NewPklDownloader] applies its options from left to right and
    each of the four options of the package sets one field: in the
    downloader it returns, every field holds what the last option for it
    gave, and the default where no option was given for it. *)
Theorem NewPklDownloader_settings (env : Defaults N D)
    (ss : list (Setting (C := C) (R := R))) :
  let d := NewPklDownloader env (option_of <$> ss) in
  logger d = default (slog_Default env) (last (omap theLogger ss))
  ∧ httpClient d =
      from_option inr (inl (http_Client env (10 * Second)))
        (last (omap theHTTPClient ss))
  ∧ fs d = default (afero_NewOsFs env) (last (omap theFilesystem ss))
  ∧ runtime d =
      from_option inr (inl (defaultRuntime env)) (last (omap theRuntime ss))
  ∧ trace d = [].
Proof.
  unfold NewPklDownloader. induction ss as [|s ss IH] using rev_ind; [done|].
  rewrite fmap_app, fold_left_app, !omap_app. simpl.
  destruct IH as (Hl & Hc & Hf & Hr & Ht).
  destruct s; simpl; rewrite ?app_nil_r, ?last_snoc; done.
Qed.

End OptionsProofs.

(** * Runs of [Download] by their result *)

Lemma downloadMap_lookup_Some (p : string * string) (filename : string) :
  downloadMap !! platformKey p = Some filename →
  (p.1, p.2, filename) ∈ compatibilityTable.
Proof.
  intros Hkey.
  destruct (decide (supported p)) as [Hp|Hp]; last first.
  { by rewrite (downloadMap_lookup_None p Hp) in Hkey. }
  revert Hp Hkey. unfold supported, compatibilityTable. simpl.
  rewrite !elem_of_cons, elem_of_nil.
  intros [->|[->|[->|[->|[->|[]]]]]]; vm_compute; intros [= <-]; intuition.
Qed.

Section Outcomes.

Context {lib : Library} {C R : Type} {client : HTTPClient C} {rt : Runtime R}.

Implicit Types d : PklDownloader (C := C) (R := R).



End Outcomes.

(** * Loading the schema *)

Section SchemaProofs.

Context {Project : Type} (Project_Name : Project → string).
Context {E : Type} {evaluator : Evaluator (Project := Project) E}.
Context (NewEvaluator : result E).


(** X9.  [LoadFromPath] returns no error exactly when the evaluator was
    created, evaluated the module at the path and closed without error,
    and then it returns the schema evaluated.  A failure of the
    evaluation comes back alone and hides what [Close] returns; when only
    [Close] fails, its error comes back together with the schema. *)
Theorem LoadFromPath_results (path : string) :
  let source := FileSource [path] in
  (∀ ret,
     (LoadFromPath NewEvaluator path).1 = (ret, None)
     ↔ ∃ ev s ev1 ev2,
         NewEvaluator = inr ev
         ∧ EvaluateModule ev source (mkSchema None) = ((s, None), ev1)
         ∧ Close ev1 = (None, ev2)
         ∧ ret = Some s)
  ∧ (∀ ev s e ev1,
       NewEvaluator = inr ev →
       EvaluateModule ev source (mkSchema None) = ((s, Some e), ev1) →
       (LoadFromPath NewEvaluator path).1 = (None, Some e))
  ∧ (∀ s e,
       (LoadFromPath NewEvaluator path).1 = (Some s, Some e)
       ↔ ∃ ev ev1 ev2,
           NewEvaluator = inr ev
           ∧ EvaluateModule ev source (mkSchema None) = ((s, None), ev1)
           ∧ Close ev1 = (Some e, ev2)).
Proof.
  intros source. unfold LoadFromPath, Load. fold source.
  destruct NewEvaluator as [e0|ev].
  { split; [|split].
    - intros ret. split; [done|]. by intros (? & ? & ? & ? & ? & _).
    - done.
    - intros s e. split; [done|]. by intros (? & ? & ? & ? & _). }
  destruct (EvaluateModule ev source (mkSchema None)) as [[s [e|]] ev1] eqn:Heval.
  - destruct (Close ev1) as [cerr ev2] eqn:Hclose. simpl.
    split; [|split].
    + intros ret. split; [done|].
      intros (? & ? & ? & ? & [= <-] & Heval' & _). congruence.
    + intros ? ? ? ? [= <-]. congruence.
    + intros s' e'. split; [done|].
      intros (? & ? & ? & [= <-] & Heval' & _). congruence.
  - destruct (Close ev1) as [cerr ev2] eqn:Hclose. simpl.
    split; [|split].
    + intros ret. split.
      * intros [= <- ->]. by exists ev, s, ev1, ev2.
      * intros (? & ? & ? & ? & [= <-] & Heval' & Hclose' & ->).
        rewrite Heval in Heval'. injection Heval' as <- <-.
        rewrite Hclose in Hclose'. by injection Hclose' as -> _.
    + intros ? ? ? ? [= <-]. congruence.
    + intros s' e'. split.
      * intros [= <- ->]. by exists ev, ev1, ev2.
      * intros (? & ? & ? & [= <-] & Heval' & Hclose').
        rewrite Heval in Heval'. injection Heval' as <- <-.
        rewrite Hclose in Hclose'. by injection Hclose' as -> _.
Qed.


End SchemaProofs.

(** * The check for the pkl binary *)

Section MainProofs.

Context {lib : Library} {build : Build} {H N : Type} {host : Host H} {net : HTTPClient N}.
Context (default_logger : list LogRecord) (default_client : Z → N).

Implicit Types p : Process (H := H).

(** [getInstallPath] by cases. *)
Lemma getInstallPath_run p :
  getInstallPath p =
    match os_UserHomeDir (hostState p) with
    | inl err =>
        (inl (wrapError "failed to get user home directory: " err),
         called Os_UserHomeDir p)
    | inr home =>
        let binDir := filepath_Join [home; ".local"; "bin"] in
        let p' := mkProcess (hostState p) (os_MkdirAll binDir perm0755 (osfs p)).2
                    (sink p) (mainCalls p ++ [Os_UserHomeDir; Os_MkdirAll binDir perm0755]) in
        match (os_MkdirAll binDir perm0755 (osfs p)).1 with
        | Some err =>
            (inl (wrapError "failed to create .local/bin directory: " err), p')
        | None => (inr (filepath_Join [binDir; binaryName]), p')
        end
    end.
Proof.
  unfold getInstallPath, called. simpl.
  destruct (os_UserHomeDir (hostState p)) as [err|home]; [done|].
  simpl. destruct (os_MkdirAll _ _ _) as [[err|] fs']; simpl;
    by rewrite <- app_assoc.
Qed.

(** X11.  Nothing is installed without consent: unless the lookup fails
    and the form returns with a yes, [checkPklBinary] leaves the
    filesystem as it was and calls nothing beyond the lookup and the
    form, and a path it returns is the one the lookup found. *)
Theorem checkPklBinary_without_consent p :
  (∀ e h, exec_LookPath (hostState p) "pkl" = inl e →
          form_Run (hostState p) ≠ (inr true, h)) →
  osfs (checkPklBinary default_logger default_client p).2 = osfs p
  ∧ (mainCalls (checkPklBinary default_logger default_client p).2
     = mainCalls p ++ [Exec_LookPath "pkl"]
     ∨ mainCalls (checkPklBinary default_logger default_client p).2
       = mainCalls p ++ [Exec_LookPath "pkl"; Form_Run])
  ∧ ∀ path,
      (checkPklBinary default_logger default_client p).1 = inr path →
      exec_LookPath (hostState p) "pkl" = inr path.
Proof.
  intros Hno. unfold checkPklBinary. simpl.
  destruct (exec_LookPath (hostState p) "pkl") as [e|pklPath] eqn:Hlook; simpl.
  2: { split; [done|]. split; [by left|]. by intros path [= <-]. }
  specialize (Hno e).
  destruct (form_Run (hostState p)) as [[err|[|]] h] eqn:Hform; simpl.
  - split; [done|]. split; [|done]. right. by rewrite <- app_assoc.
  - by destruct (Hno h eq_refl).
  - split; [done|]. split; [|done]. right. by rewrite <- app_assoc.
Qed.

(** [checkPklBinary] once the user has agreed to the installation. *)
Lemma checkPklBinary_consented p e h :
  exec_LookPath (hostState p) "pkl" = inl e →
  form_Run (hostState p) = (inr true, h) →
  checkPklBinary default_logger default_client p =
    let p1 := mkProcess h (osfs p)
                (sink p ++ [mkSlogRecord slog_LevelError "pkl binary not found in PATH" []])
                (mainCalls p ++ [Exec_LookPath "pkl"; Form_Run]) in
    match getInstallPath p1 with
    | (inl err, p2) =>
        (inl (wrapError "failed to determine installation path: " err), p2)
    | (inr installPath, p2) =>
        let r := Download installPath (newDownloader default_logger default_client p2) in
        let p3 := downloaded r.2 (slogged slog_LevelInfo "Downloading pkl..." [] p2) in
        match r.1 with
        | inl err => (inl (wrapError "failed to download pkl: " err), p3)
        | inr _ =>
            (inr installPath,
             slogged slog_LevelInfo "Successfully installed pkl"
               [("path", installPath)] p3)
        end
    end.
Proof.
  intros Hlook Hform. unfold checkPklBinary. simpl.
  rewrite Hlook. simpl. rewrite Hform. simpl.
  unfold called. simpl. rewrite <- app_assoc. simpl.
  destruct (getInstallPath _) as [[err|installPath] p2]; [done|].
  by destruct (Download _ _) as [[err|[]] d'].
Qed.

(** The downloader of [checkPklBinary] runs on the platform of the
    build. *)
Lemma newDownloader_platform p :
  GOOS (runtime (newDownloader default_logger default_client p)) = build_GOOS
  ∧ GOARCH (runtime (newDownloader default_logger default_client p)) = build_GOARCH
  ∧ fs (newDownloader default_logger default_client p) = osfs p
  ∧ trace (newDownloader default_logger default_client p) = [].
Proof. done. Qed.



(** X14.  The name [getInstallPath] gives the binary agrees with the
    artifact the downloader fetches for the same build: on every
    platform the compatibility table knows, the one ends in ".exe"
    exactly when the other does. *)
Theorem binaryName_matches_artifact (filename : string) :
  downloadMap !! platformKey (build_GOOS, build_GOARCH) = Some filename →
  hasSuffix binaryName ".exe" = hasSuffix filename ".exe".
Proof.
  intros Hin%downloadMap_lookup_Some. revert Hin. unfold binaryName.
  unfold compatibilityTable. simpl. rewrite !elem_of_cons, elem_of_nil.
  intros [Heq|[Heq|[Heq|[Heq|[Heq|[]]]]]]; injection Heq as Hos _ ->;
    rewrite Hos; by vm_compute.
Qed.

End MainProofs.

(** * A build outside the compatibility table *)

Section Unsupported.

Context {lib : Library} {C R : Type} {client : HTTPClient C} {rt : Runtime R}.

Implicit Types d : PklDownloader (C := C) (R := R).

(** On a platform outside the table [Download] fails, at the lookup or at
    the resolver, after one request to the release index and without a
    change to the filesystem. *)
Lemma Download_unsupported path d :
  ¬ supported (GOOS (runtime d), GOARCH (runtime d)) →
  url_Parse releaseURL = None →
  ∃ err evs,
    (Download path d).1 = inl err
    ∧ fs (Download path d).2 = fs d
    ∧ trace (Download path d).2 = trace d ++ evs
    ∧ requests evs = [releaseRequest]
    ∧ ((∃ cause, Error err = "failed to get latest version: " +:+ cause)
       ∨ Error err = "failed to get download URL: "
                     +:+ "unsupported OS/architecture combination: "
                     +:+ GOOS (runtime d) +:+ "/" +:+ GOARCH (runtime d)).
Proof.
  intros Hp Hparse. rewrite Download_run.
  destruct (getLatestPklVersion_requests (started path d) Hparse)
    as (evs & Htrace & Hreqs).
  destruct (getLatestPklVersion_frame (started path d)) as [Hfs Hrt].
  destruct (getLatestPklVersion (started path d)) as [[e|version] d1].
  { exists (wrapError "failed to get latest version: " e), evs. simpl in *.
    repeat (split; [done|]). left. by exists (Error e). }
  simpl in Hfs, Hrt, Htrace.
  rewrite getPklDownloadURL_run, Hrt. simpl.
  rewrite (downloadMap_lookup_None _ Hp).
  eexists. exists (evs ++ [Runtime_GOOS; Runtime_GOARCH]). simpl.
  split; [done|]. split; [done|]. split.
  { by rewrite Htrace, <- !app_assoc. }
  split; [|by right].
  by rewrite requests_app, Hreqs.
Qed.

End Unsupported.

Section MainUnsupported.

Context {lib : Library} {build : Build} {H N : Type} {host : Host H} {net : HTTPClient N}.
Context (default_logger : list LogRecord) (default_client : Z → N).

Implicit Types p : Process (H := H).

(** X15.  The platform is checked last.  On a build outside the
    compatibility table [checkPklBinary] cannot install, but once the
    user has agreed it still creates .local/bin and sends the request
    to the release index before it fails; no file is written. *)
Theorem checkPklBinary_unsupported_platform p (e : error) (h : H) (home : string) :
  let binDir := filepath_Join [home; ".local"; "bin"] in
  ¬ supported (build_GOOS, build_GOARCH) →
  exec_LookPath (hostState p) "pkl" = inl e →
  form_Run (hostState p) = (inr true, h) →
  os_UserHomeDir h = inr home →
  (os_MkdirAll binDir perm0755 (osfs p)).1 = None →
  url_Parse releaseURL = None →
  ∃ err evs,
    (checkPklBinary default_logger default_client p).1 = inl err
    ∧ osfs (checkPklBinary default_logger default_client p).2
      = (os_MkdirAll binDir perm0755 (osfs p)).2
    ∧ mainCalls (checkPklBinary default_logger default_client p).2 =
        mainCalls p
        ++ [Exec_LookPath "pkl"; Form_Run; Os_UserHomeDir; Os_MkdirAll binDir perm0755]
        ++ (Downloader_call <$> evs)
    ∧ requests evs = [releaseRequest]
    ∧ ((∃ cause,
          Error err = "failed to download pkl: " +:+ "failed to get latest version: "
                      +:+ cause)
       ∨ Error err = "failed to download pkl: " +:+ "failed to get download URL: "
                     +:+ "unsupported OS/architecture combination: "
                     +:+ build_GOOS +:+ "/" +:+ build_GOARCH).
Proof.
  intros binDir Hp Hlook Hform Hhome Hmkdir Hparse.
  rewrite (checkPklBinary_consented _ _ p e h Hlook Hform). cbv zeta.
  rewrite getInstallPath_run. simpl. rewrite Hhome. cbv zeta. fold binDir.
  rewrite Hmkdir.
  set (p2 := mkProcess _ _ _ _).
  pose proof (Download_unsupported (lib := lib)
                (filepath_Join [binDir; binaryName])
                (newDownloader default_logger default_client p2)) as Hrun.
  destruct (Hrun Hp Hparse) as (err & evs & Herr & Hfs & Htrace & Hreqs & Hmsg).
  clear Hrun.
  exists (wrapError "failed to download pkl: " err), evs.
  destruct (Download _ _) as [r d']. simpl in Herr, Hfs, Htrace. subst r. simpl.
  split; [done|]. split; [by rewrite Hfs|]. split.
  { rewrite Htrace. simpl. by rewrite <- !app_assoc. }
  split; [done|].
  destruct Hmsg as [[cause Hmsg]|Hmsg]; rewrite Hmsg; [left; by exists cause|by right].
Qed.

End MainUnsupported.


(** * The decoder on sample documents *)

Example Unmarshal_release :
  json.Unmarshal (string_of_list_byte (releaseJSON "0.28.2")) (json.mkRelease "")
  = (json.mkRelease "0.28.2", None).
Proof. by vm_compute. Qed.

(** Keys are matched without regard to case, the last match wins, other
    members are skipped whatever they hold. *)
Example Unmarshal_folded_key :
  json.Unmarshal
    ("{" +:+ dquote +:+ "tag_name" +:+ dquote +:+ ":" +:+ dquote +:+ "a" +:+ dquote
     +:+ ", " +:+ dquote +:+ "assets" +:+ dquote +:+ ": [1, {}, -0.5e+3, true, null]"
     +:+ ", " +:+ dquote +:+ "TAG_NAME" +:+ dquote +:+ ":" +:+ dquote +:+ "b" +:+ dquote
     +:+ "}")
    (json.mkRelease "")
  = (json.mkRelease "b", None).
Proof. by vm_compute. Qed.

(** Escapes are decoded, a surrogate pair becomes one code point. *)
Example unquote_escapes :
  json.unquote "v1\n\ud83d\ude00\ud83d"
  = "v1" +:+ String "010" ""
    +:+ String "240" (String "159" (String "152" (String "128" "")))
    +:+ json.RuneError.
Proof. by vm_compute. Qed.

Example Unmarshal_number_tag :
  json.Unmarshal ("{" +:+ dquote +:+ "tag_name" +:+ dquote +:+ ": 28}") (json.mkRelease "")
  = (json.mkRelease "", Some (json.UnmarshalTypeError "number" "tag_name")).
Proof. by vm_compute. Qed.

Example Unmarshal_array :
  json.Unmarshal "[1, 2]" (json.mkRelease "")
  = (json.mkRelease "", Some (json.UnmarshalTypeError "array" "")).
Proof. by vm_compute. Qed.

Example Unmarshal_not_json :
  json.Unmarshal "Not Found" (json.mkRelease "")
  = (json.mkRelease "",
     Some (json.InvalidCharacter "N" "looking for beginning of value")).
Proof. by vm_compute. Qed.

Example Unmarshal_truncated :
  json.Unmarshal ("{" +:+ dquote +:+ "tag_name" +:+ dquote +:+ ": ") (json.mkRelease "")
  = (json.mkRelease "", Some json.UnexpectedEnd).
Proof. by vm_compute. Qed.

(** * The test suite, [TestPklDownloader_Download] *)

Example success_darwin_amd64 :
  successCase "darwin" "amd64"
    "https://github.com/apple/pkl/releases/download/0.28.2/pkl-macos-amd64".
Proof. by vm_compute. Qed.

Example success_darwin_arm64 :
  successCase "darwin" "arm64"
    "https://github.com/apple/pkl/releases/download/0.28.2/pkl-macos-aarch64".
Proof. by vm_compute. Qed.

Example success_linux_amd64 :
  successCase "linux" "amd64"
    "https://github.com/apple/pkl/releases/download/0.28.2/pkl-linux-amd64".
Proof. by vm_compute. Qed.

Example success_linux_arm64 :
  successCase "linux" "arm64"
    "https://github.com/apple/pkl/releases/download/0.28.2/pkl-linux-aarch64".
Proof. by vm_compute. Qed.

Example success_windows_amd64 :
  successCase "windows" "amd64"
    "https://github.com/apple/pkl/releases/download/0.28.2/pkl-windows-amd64.exe".
Proof. by vm_compute. Qed.

Example failure_unsupported_platform :
  observe (mockDownloader (testClient (inr artifactResponse)) NewMemMapFs
             "unsupported" "unsupported")
  = (Some "failed to get download URL: unsupported OS/architecture combination: unsupported/unsupported",
     None).
Proof. by vm_compute. Qed.

Example failure_github_API_error :
  observe (testDownloader [(releaseURL, inl (errorString "connection refused"))]
             NewMemMapFs)
  = (Some "failed to get latest version: failed to fetch latest release: connection refused",
     None).
Proof. by vm_compute. Qed.

Example failure_github_API_non_200 :
  observe (testDownloader
             [(releaseURL,
               inr (mkResponse 404 (mkBody (list_byte_of_string "Not Found") None)))]
             NewMemMapFs)
  = (Some "failed to get latest version: failed to fetch latest release: status code 404",
     None).
Proof. by vm_compute. Qed.

Example failure_download_error :
  observe (testDownloader (testClient (inl (errorString "connection refused")))
             NewMemMapFs)
  = (Some "failed to download binary: connection refused", None).
Proof. by vm_compute. Qed.

(** On a filesystem of the operating system a file that is already at the
    target path is overwritten: the new contents replace the old ones and
    the permission bits become 0755. *)
Example success_over_existing_file :
  let old := mkFile (list_byte_of_string "an older binary") 384 in
  observe (testDownloader (testClient (inr artifactResponse))
             (OsFs 18 {[ testPath := old ]}))
  = (None, Some (10%nat, perm0755)).
Proof. by vm_compute. Qed.

(** When the write stops after four bytes, those four bytes stay behind
    under the mode [Create] left. *)
Example failure_disk_full :
  observe (testDownloader (testClient (inr artifactResponse))
             (refusingFs None (Some (4%nat, errorString "no space left on device")) None))
  = (Some "failed to write file: no space left on device", Some (4%nat, 0)).
Proof. by vm_compute. Qed.

(** * The theorems at the inputs of the test suite *)

Lemma getPklDownloadURL_supported_witness :
  let d := mockDownloader [] NewMemMapFs "linux" "amd64" in
  ("linux", "amd64", "pkl-linux-amd64") ∈ compatibilityTable
  ∧ GOOS (runtime d) = "linux"
  ∧ GOARCH (runtime d) = "amd64"
  ∧ getPklDownloadURL "0.28.2" d =
      (inr "https://github.com/apple/pkl/releases/download/0.28.2/pkl-linux-amd64",
       emit Runtime_GOARCH (emit Runtime_GOOS d)).
Proof.
  intros d.
  assert (("linux", "amd64", "pkl-linux-amd64") ∈ compatibilityTable) as Hin
    by (unfold compatibilityTable; repeat constructor).
  split; [exact Hin|]. split; [reflexivity|]. split; [reflexivity|].
  exact (proj1 (getPklDownloadURL_supported d
                  "linux" "amd64" "pkl-linux-amd64" "0.28.2" Hin eq_refl eq_refl)).
Defined.

Lemma getPklDownloadURL_unsupported_witness :
  let d := mockDownloader [] NewMemMapFs "unsupported" "unsupported" in
  GOOS (runtime d) = "unsupported"
  ∧ GOARCH (runtime d) = "unsupported"
  ∧ ¬ supported ("unsupported", "unsupported")
  ∧ ∃ err,
      (∀ version,
         getPklDownloadURL version d =
           (inl err, emit Runtime_GOARCH (emit Runtime_GOOS d)))
      ∧ Error (lib := exampleLibrary) err =
          "unsupported OS/architecture combination: unsupported/unsupported"
      ∧ Unwrap err = None.
Proof.
  intros d.
  assert (¬ supported ("unsupported", "unsupported")) as Hp.
  { unfold supported, compatibilityTable. simpl.
    rewrite !elem_of_cons, elem_of_nil. intros [?|[?|[?|[?|[?|[]]]]]]; discriminate. }
  split; [reflexivity|]. split; [reflexivity|]. split; [exact Hp|].
  exact (getPklDownloadURL_unsupported (lib := exampleLibrary) d
           "unsupported" "unsupported" eq_refl eq_refl Hp).
Defined.

(** The release index answers 200 with the body [{}]: an object with no
    member, so with no version tag; the lookup returns the empty version
    and no error. *)
Lemma getLatestPklVersion_empty_object :
  let body := list_byte_of_string "{}" in
  let d := mockDownloader
             [(releaseURL, inr (mkResponse StatusOK (mkBody body None)))]
             NewMemMapFs "linux" "amd64" in
  json.checkValid (string_of_list_byte body) = inr (json.Object [])
  ∧ (getLatestPklVersion (lib := exampleLibrary) d).1 = inr ""
  ∧ ¬ ∃ e, (getLatestPklVersion (lib := exampleLibrary) d).1 = inl e.
Proof.
  intros body d.
  assert ((getLatestPklVersion (lib := exampleLibrary) d).1 = inr "") as Hrun
    by (by vm_compute).
  split; [by vm_compute|]. split; [exact Hrun|].
  intros [e He]. rewrite Hrun in He. discriminate.
Qed.

(** "github API non-200 response" *)
Lemma Download_index_bad_status_witness :
  let resp := mkResponse 404 (mkBody (list_byte_of_string "Not Found") None) in
  let c : MockHTTPClient := [(releaseURL, inr resp)] in
  let d := testDownloader c NewMemMapFs in
  url_Parse (Library := exampleLibrary) releaseURL = None
  ∧ Do (httpClient d) releaseRequest = (inr resp, c)
  ∧ StatusCode resp ≠ StatusOK
  ∧ ∃ err,
      (getLatestPklVersion (lib := exampleLibrary) d).1 = inl err
      ∧ Error (lib := exampleLibrary) err =
          "failed to fetch latest release: status code " +:+ pretty (StatusCode resp)
      ∧ (∀ n, Error (lib := exampleLibrary) err =
                "failed to fetch latest release: status code " +:+ pretty n →
              n = StatusCode resp)
      ∧ (Download (lib := exampleLibrary) testPath d).1 =
          inl (wrapError "failed to get latest version: " err)
      ∧ calls (Download (lib := exampleLibrary) testPath) d =
          [HTTPClient_Do releaseRequest; Body_Close]
      ∧ fs (Download (lib := exampleLibrary) testPath d).2 = fs d.
Proof.
  intros resp c d.
  assert (url_Parse (Library := exampleLibrary) releaseURL = None) as Hparse
    by reflexivity.
  assert (Do (httpClient d) releaseRequest = (inr resp, c)) as Hdo
    by reflexivity.
  assert (StatusCode resp ≠ StatusOK) as Hstatus by (vm_compute; discriminate).
  split; [exact Hparse|]. split; [exact Hdo|]. split; [exact Hstatus|].
  exact (Download_index_bad_status (lib := exampleLibrary) testPath d resp c
           Hparse Hdo Hstatus).
Defined.

(** The tests that serve an artifact response get as far as holding it. *)
Lemma fetched_test (resp : Response) (fs0 : Fs) :
  fetched (lib := exampleLibrary) testPath (testDownloader (testClient (inr resp)) fs0)
    "0.28.2" linuxURL linuxRequest resp (atArtifact (testClient (inr resp)) fs0).
Proof.
  unfold fetched, atArtifact.
  exists (getLatestPklVersion (lib := exampleLibrary)
            (started testPath (testDownloader (testClient (inr resp)) fs0))).2.
  exists (getPklDownloadURL "0.28.2"
            (getLatestPklVersion (lib := exampleLibrary)
               (started testPath (testDownloader (testClient (inr resp)) fs0))).2).2.
  exists (testClient (inr resp)).
  split; [by vm_compute|]. split; [by vm_compute|]. split; [by vm_compute|].
  split; [by vm_compute|]. by vm_compute.
Qed.

(** "github API non-200 response", served by the artifact host instead *)
Lemma Download_artifact_bad_status_witness :
  let resp := mkResponse 404 (mkBody (list_byte_of_string "Not Found") None) in
  let c := testClient (inr resp) in
  let d := testDownloader c NewMemMapFs in
  fetched (lib := exampleLibrary) testPath d "0.28.2" linuxURL linuxRequest resp
    (atArtifact c NewMemMapFs)
  ∧ StatusCode resp ≠ StatusOK
  ∧ ∃ err,
      (Download (lib := exampleLibrary) testPath d).1 = inl err
      ∧ Error (lib := exampleLibrary) err =
          "failed to download binary: status code " +:+ pretty (StatusCode resp)
      ∧ (∀ n, Error (lib := exampleLibrary) err =
                "failed to download binary: status code " +:+ pretty n →
              n = StatusCode resp)
      ∧ fs (Download (lib := exampleLibrary) testPath d).2 = fs d
      ∧ calls (Download (lib := exampleLibrary) testPath) d =
          [HTTPClient_Do releaseRequest; Body_Close; Runtime_GOOS; Runtime_GOARCH;
           HTTPClient_Do linuxRequest; Body_Close]
      ∧ filter isFsCall (calls (Download (lib := exampleLibrary) testPath) d) = [].
Proof.
  intros resp c d.
  assert (StatusCode resp ≠ StatusOK) as Hstatus by (vm_compute; discriminate).
  split; [apply fetched_test|]. split; [exact Hstatus|].
  exact (Download_artifact_bad_status (lib := exampleLibrary) testPath d
           "0.28.2" linuxURL linuxRequest resp (atArtifact c NewMemMapFs)
           (fetched_test resp NewMemMapFs) Hstatus).
Defined.


(** The release index of the success cases. *)
Lemma getLatestPklVersion_decodes_witness :
  let body := releaseJSON "0.28.2" in
  let resp := mkResponse StatusOK (mkBody body None) in
  let c : MockHTTPClient := [(releaseURL, inr resp)] in
  let d := testDownloader c NewMemMapFs in
  let data := string_of_list_byte body in
  let u := json.Unmarshal data (json.mkRelease "") in
  url_Parse (Library := exampleLibrary) releaseURL = None
  ∧ Do (httpClient d) releaseRequest = (inr resp, c)
  ∧ StatusCode resp = StatusOK
  ∧ ReadAll (Body resp) = inr body
  ∧ (getLatestPklVersion (lib := exampleLibrary) d).1 = inr "0.28.2"
  ∧ (getLatestPklVersion (lib := exampleLibrary) d).1 =
      match u.2 with
      | Some e => inl (wrapError "failed to parse release data: " (jsonError e))
      | None => inr (json.TagName u.1)
      end
  ∧ (u.2 = None ↔ ∃ v, json.checkValid data = inr v ∧ json.accepted v = true)
  ∧ (∀ fields,
       json.checkValid data = inr (json.Object fields) →
       forallb (λ kv, negb (json.tagged kv)) fields = true →
       (getLatestPklVersion (lib := exampleLibrary) d).1 = inr "")
  ∧ (json.checkValid data = inr json.Null →
     (getLatestPklVersion (lib := exampleLibrary) d).1 = inr "").
Proof.
  intros body resp c d data u.
  split; [reflexivity|]. split; [reflexivity|]. split; [reflexivity|].
  split; [reflexivity|]. split; [by vm_compute|].
  exact (getLatestPklVersion_decodes (lib := exampleLibrary) d resp c body
           eq_refl eq_refl eq_refl eq_refl).
Defined.

(** "github API error", "unsupported platform" and "download error" *)
Lemma Download_error_wrapping_witness :
  (let d := testDownloader [(releaseURL, inl (errorString "connection refused"))]
              NewMemMapFs in
   let err := wrapError "failed to fetch latest release: "
                (errorString "connection refused") in
   let d1 := (getLatestPklVersion (lib := exampleLibrary) (started testPath d)).2 in
   getLatestPklVersion (lib := exampleLibrary) (started testPath d) = (inl err, d1)
   ∧ ∃ e, Download (lib := exampleLibrary) testPath d = (inl e, d1)
          ∧ Unwrap e = Some err
          ∧ Error (lib := exampleLibrary) e =
              "failed to get latest version" +:+ ": " +:+ Error (lib := exampleLibrary) err)
  ∧ (let d := mockDownloader (testClient (inr artifactResponse)) NewMemMapFs
                "unsupported" "unsupported" in
     let err := errorString
                  "unsupported OS/architecture combination: unsupported/unsupported" in
     let d1 := (getLatestPklVersion (lib := exampleLibrary) (started testPath d)).2 in
     let d2 := (getPklDownloadURL "0.28.2" d1).2 in
     getLatestPklVersion (lib := exampleLibrary) (started testPath d) = (inr "0.28.2", d1)
     ∧ getPklDownloadURL "0.28.2" d1 = (inl err, d2)
     ∧ ∃ e, Download (lib := exampleLibrary) testPath d = (inl e, d2)
            ∧ Unwrap e = Some err
            ∧ Error (lib := exampleLibrary) e =
                "failed to get download URL" +:+ ": " +:+ Error (lib := exampleLibrary) err)
  ∧ (let c := testClient (inl (errorString "connection refused")) in
     let d := testDownloader c NewMemMapFs in
     let err := errorString "connection refused" in
     let d1 := (getLatestPklVersion (lib := exampleLibrary) (started testPath d)).2 in
     let d2 := (getPklDownloadURL "0.28.2" d1).2 in
     getLatestPklVersion (lib := exampleLibrary) (started testPath d) = (inr "0.28.2", d1)
     ∧ getPklDownloadURL "0.28.2" d1 = (inr linuxURL, d2)
     ∧ NewRequest (lib := exampleLibrary) "GET" linuxURL = inr linuxRequest
     ∧ Do (httpClient d2) linuxRequest = (inl err, c)
     ∧ ∃ e, (Download (lib := exampleLibrary) testPath d).1 = inl e
            ∧ Unwrap e = Some err
            ∧ Error (lib := exampleLibrary) e =
                "failed to download binary" +:+ ": " +:+ Error (lib := exampleLibrary) err).
Proof.
  split; [|split].
  - intros d err d1.
    assert (getLatestPklVersion (lib := exampleLibrary) (started testPath d)
            = (inl err, d1)) as Hlookup by (by vm_compute).
    split; [exact Hlookup|].
    exact (proj1 (Download_error_wrapping (lib := exampleLibrary) testPath d)
             err d1 Hlookup).
  - intros d err d1 d2.
    assert (getLatestPklVersion (lib := exampleLibrary) (started testPath d)
            = (inr "0.28.2", d1)) as Hlookup by (by vm_compute).
    assert (getPklDownloadURL "0.28.2" d1 = (inl err, d2)) as Hresolve
      by (by vm_compute).
    split; [exact Hlookup|]. split; [exact Hresolve|].
    exact (proj1 (proj2 (Download_error_wrapping (lib := exampleLibrary) testPath d))
             "0.28.2" d1 err d2 Hlookup Hresolve).
  - intros c d err d1 d2.
    assert (getLatestPklVersion (lib := exampleLibrary) (started testPath d)
            = (inr "0.28.2", d1)) as Hlookup by (by vm_compute).
    assert (getPklDownloadURL "0.28.2" d1 = (inr linuxURL, d2)) as Hresolve
      by (by vm_compute).
    assert (NewRequest (lib := exampleLibrary) "GET" linuxURL = inr linuxRequest)
      as Hreq by (by vm_compute).
    assert (Do (httpClient d2) linuxRequest = (inl err, c)) as Hdo
      by (by vm_compute).
    split; [exact Hlookup|]. split; [exact Hresolve|]. split; [exact Hreq|].
    split; [exact Hdo|].
    exact (proj1 (proj2 (proj2
             (Download_error_wrapping (lib := exampleLibrary) testPath d)))
             "0.28.2" d1 linuxURL d2 linuxRequest err c Hlookup Hresolve Hreq Hdo).
Defined.

(** A backend that refuses to change modes. *)
Lemma Download_chmod_fails_witness :
  let resp := artifactResponse in
  let err := errorString "operation not permitted" in
  let fs0 := refusingFs None None (Some err) in
  let c := testClient (inr resp) in
  let d := testDownloader c fs0 in
  let d3 := atArtifact c fs0 in
  let out := mkHandle testPath in
  let d4 := (fs_Create testPath d3).2 in
  let d5 := (Copy out (Body resp) d4).2 in
  let d6 := (fs_Chmod testPath perm0755 d5).2 in
  fetched (lib := exampleLibrary) testPath d "0.28.2" linuxURL linuxRequest resp d3
  ∧ StatusCode resp = StatusOK
  ∧ fs_Create testPath d3 = (inr out, d4)
  ∧ Copy out (Body resp) d4 = (inr 10%nat, d5)
  ∧ fs_Chmod testPath perm0755 d5 = (inl err, d6)
  ∧ (Download (lib := exampleLibrary) testPath d).1 =
      inl (wrapError "failed to make file executable: " err)
  ∧ Error (lib := exampleLibrary) (wrapError "failed to make file executable: " err) =
      "failed to make file executable: " +:+ Error (lib := exampleLibrary) err
  ∧ files (fs (Download (lib := exampleLibrary) testPath d).2) !! testPath =
      Some (mkFile (content (Body resp))
              (createMode (fs d) (files (fs d) !! testPath)))
  ∧ calls (Download (lib := exampleLibrary) testPath) d =
      [HTTPClient_Do releaseRequest; Body_Close; Runtime_GOOS; Runtime_GOARCH;
       HTTPClient_Do linuxRequest;
       Fs_Create testPath; File_Write testPath (content (Body resp));
       Fs_Chmod testPath perm0755; File_Close testPath; Body_Close].
Proof.
  intros resp err fs0 c d d3 out d4 d5 d6.
  assert (fs_Create testPath d3 = (inr out, d4)) as Hcreate by (by vm_compute).
  assert (Copy out (Body resp) d4 = (inr 10%nat, d5)) as Hcopy by (by vm_compute).
  assert (fs_Chmod testPath perm0755 d5 = (inl err, d6)) as Hchmod by (by vm_compute).
  split; [apply fetched_test|]. split; [reflexivity|].
  split; [exact Hcreate|]. split; [exact Hcopy|]. split; [exact Hchmod|].
  exact (Download_chmod_fails (lib := exampleLibrary) testPath d
           "0.28.2" linuxURL linuxRequest resp d3 out d4 10%nat d5 err d6
           (fetched_test resp fs0) eq_refl Hcreate Hcopy Hchmod).
Defined.

(** A backend that refuses to create, one that takes four bytes, and one
    that accepts everything. *)
Lemma Download_install_order_witness :
  (let resp := artifactResponse in
   let err := errorString "permission denied" in
   let fs0 := refusingFs (Some err) None None in
   let c := testClient (inr resp) in
   let d := testDownloader c fs0 in
   let d3 := atArtifact c fs0 in
   let d4 := (fs_Create testPath d3).2 in
   fetched (lib := exampleLibrary) testPath d "0.28.2" linuxURL linuxRequest resp d3
   ∧ StatusCode resp = StatusOK
   ∧ fs_Create testPath d3 = (inl err, d4)
   ∧ (Download (lib := exampleLibrary) testPath d).1 =
       inl (wrapError "failed to create file: " err)
   ∧ filter isStep (calls (Download (lib := exampleLibrary) testPath) d) =
       [Fs_Create testPath]
   ∧ fs (Download (lib := exampleLibrary) testPath d).2 = fs d)
  ∧ (let resp := artifactResponse in
     let err := errorString "no space left on device" in
     let fs0 := refusingFs None (Some (4%nat, err)) None in
     let c := testClient (inr resp) in
     let d := testDownloader c fs0 in
     let d3 := atArtifact c fs0 in
     let out := mkHandle testPath in
     let d4 := (fs_Create testPath d3).2 in
     let d5 := (Copy out (Body resp) d4).2 in
     fetched (lib := exampleLibrary) testPath d "0.28.2" linuxURL linuxRequest resp d3
     ∧ StatusCode resp = StatusOK
     ∧ fs_Create testPath d3 = (inr out, d4)
     ∧ Copy out (Body resp) d4 = (inl err, d5)
     ∧ (Download (lib := exampleLibrary) testPath d).1 =
         inl (wrapError "failed to write file: " err)
     ∧ filter isStep (calls (Download (lib := exampleLibrary) testPath) d) =
         [Fs_Create testPath; File_Write testPath (content (Body resp))]
     ∧ mode <$> files (fs (Download (lib := exampleLibrary) testPath d).2) !! testPath =
         Some (createMode (fs d) (files (fs d) !! testPath)))
  ∧ (let resp := artifactResponse in
     let c := testClient (inr resp) in
     let d := testDownloader c NewMemMapFs in
     let d3 := atArtifact c NewMemMapFs in
     let steps := filter isStep (calls (Download (lib := exampleLibrary) testPath) d) in
     fetched (lib := exampleLibrary) testPath d "0.28.2" linuxURL linuxRequest resp d3
     ∧ StatusCode resp = StatusOK
     ∧ steps `prefix_of` installSteps testPath (content (Body resp))
     ∧ Fs_Create testPath ∈ steps).
Proof.
  split; [|split].
  - intros resp err fs0 c d d3 d4.
    assert (fs_Create testPath d3 = (inl err, d4)) as Hcreate by (by vm_compute).
    split; [apply fetched_test|]. split; [reflexivity|]. split; [exact Hcreate|].
    exact (proj1 (proj2 (proj2
             (Download_install_order (lib := exampleLibrary) testPath d
                "0.28.2" linuxURL linuxRequest resp d3
                (fetched_test resp fs0) eq_refl)))
             err d4 Hcreate).
  - intros resp err fs0 c d d3 out d4 d5.
    assert (fs_Create testPath d3 = (inr out, d4)) as Hcreate by (by vm_compute).
    assert (Copy out (Body resp) d4 = (inl err, d5)) as Hcopy by (by vm_compute).
    split; [apply fetched_test|]. split; [reflexivity|]. split; [exact Hcreate|].
    split; [exact Hcopy|].
    exact (proj1 (proj2 (proj2 (proj2
             (Download_install_order (lib := exampleLibrary) testPath d
                "0.28.2" linuxURL linuxRequest resp d3
                (fetched_test resp fs0) eq_refl))))
             out d4 err d5 Hcreate Hcopy).
  - intros resp c d d3 steps.
    split; [apply fetched_test|]. split; [reflexivity|].
    pose proof (Download_install_order (lib := exampleLibrary) testPath d
                  "0.28.2" linuxURL linuxRequest resp d3
                  (fetched_test resp NewMemMapFs) eq_refl) as (Hprefix & Hin & _).
    split; [exact Hprefix|exact Hin].
Defined.

(** "success/linux/amd64", "github API error" and "download error" *)
Lemma Download_requests_witness :
  (let d := testDownloader (testClient (inr artifactResponse)) NewMemMapFs in
   let reqs := requests (calls (Download (lib := exampleLibrary) testPath) d) in
   url_Parse (Library := exampleLibrary) releaseURL = None
   ∧ reqs = [releaseRequest; linuxRequest]
   ∧ length (filter (λ r, URL r = releaseURL) reqs) = 1%nat
   ∧ (length (filter (λ r, URL r ≠ releaseURL) reqs) ≤ 1)%nat)
  ∧ (let err := errorString "connection refused" in
     let c : MockHTTPClient := [(releaseURL, inl err)] in
     let d := testDownloader c NewMemMapFs in
     let reqs := requests (calls (Download (lib := exampleLibrary) testPath) d) in
     url_Parse (Library := exampleLibrary) releaseURL = None
     ∧ Do (httpClient d) releaseRequest = (inl err, c)
     ∧ reqs = [releaseRequest]
     ∧ ∃ e, (Download (lib := exampleLibrary) testPath d).1 = inl e)
  ∧ (let err := errorString "connection refused" in
     let c := testClient (inl err) in
     let d := testDownloader c NewMemMapFs in
     let reqs := requests (calls (Download (lib := exampleLibrary) testPath) d) in
     let d1 := (getLatestPklVersion (lib := exampleLibrary) (started testPath d)).2 in
     let d2 := (getPklDownloadURL "0.28.2" d1).2 in
     url_Parse (Library := exampleLibrary) releaseURL = None
     ∧ getLatestPklVersion (lib := exampleLibrary) (started testPath d) = (inr "0.28.2", d1)
     ∧ getPklDownloadURL "0.28.2" d1 = (inr linuxURL, d2)
     ∧ NewRequest (lib := exampleLibrary) "GET" linuxURL = inr linuxRequest
     ∧ Do (httpClient d2) linuxRequest = (inl err, c)
     ∧ reqs = [releaseRequest; linuxRequest]
     ∧ ∃ e, (Download (lib := exampleLibrary) testPath d).1 = inl e).
Proof.
  split; [|split].
  - intros d reqs.
    pose proof (Download_requests (lib := exampleLibrary) testPath d eq_refl)
      as (_ & Hindex & Hother & _ & _ & Hfetched).
    split; [reflexivity|]. split; [|split; [exact Hindex|exact Hother]].
    exact (Hfetched "0.28.2" linuxURL linuxRequest artifactResponse
             (atArtifact (testClient (inr artifactResponse)) NewMemMapFs)
             (fetched_test artifactResponse NewMemMapFs)).
  - intros err c d reqs.
    assert (Do (httpClient d) releaseRequest = (inl err, c)) as Hdo by reflexivity.
    split; [reflexivity|]. split; [exact Hdo|].
    exact (proj1 (proj2 (proj2 (proj2
             (Download_requests (lib := exampleLibrary) testPath d eq_refl))))
             err c Hdo).
  - intros err c d reqs d1 d2.
    assert (getLatestPklVersion (lib := exampleLibrary) (started testPath d)
            = (inr "0.28.2", d1)) as Hlookup by (by vm_compute).
    assert (getPklDownloadURL "0.28.2" d1 = (inr linuxURL, d2)) as Hresolve
      by (by vm_compute).
    assert (NewRequest (lib := exampleLibrary) "GET" linuxURL = inr linuxRequest)
      as Hreq by (by vm_compute).
    assert (Do (httpClient d2) linuxRequest = (inl err, c)) as Hdo
      by (by vm_compute).
    split; [reflexivity|]. split; [exact Hlookup|]. split; [exact Hresolve|].
    split; [exact Hreq|]. split; [exact Hdo|].
    exact (proj1 (proj2 (proj2 (proj2 (proj2
             (Download_requests (lib := exampleLibrary) testPath d eq_refl)))))
             "0.28.2" d1 linuxURL d2 linuxRequest err c Hlookup Hresolve Hreq Hdo).
Defined.


(** * Further properties at the inputs of the test suite *)


Lemma linux_amd64_in_table :
  ("linux", "amd64", "pkl-linux-amd64") ∈ compatibilityTable.
Proof.
  unfold compatibilityTable.
  do 2 apply list_elem_of_further. apply list_elem_of_here.
Qed.


(** A release index that serves the empty object. *)
Lemma Download_requests_without_tag_witness :
  let index := mkResponse StatusOK (mkBody (list_byte_of_string "{}") None) in
  let d := testDownloader
             [(releaseURL, inr index);
              (baseURL +:+ "/" +:+ "pkl-linux-amd64", inr artifactResponse)]
             NewMemMapFs in
  let c := (Do (httpClient d) releaseRequest).2 in
  (url_Parse (Library := exampleLibrary) releaseURL = None
   ∧ Do (httpClient d) releaseRequest = (inr index, c)
   ∧ StatusCode index = StatusOK
   ∧ ReadAll (Body index) = inr (list_byte_of_string "{}")
   ∧ json.checkValid (string_of_list_byte (list_byte_of_string "{}"))
     = inr (json.Object [])
   ∧ forallb (λ kv, negb (json.tagged kv)) [] = true
   ∧ ("linux", "amd64", "pkl-linux-amd64") ∈ compatibilityTable
   ∧ GOOS (runtime d) = "linux"
   ∧ GOARCH (runtime d) = "amd64"
   ∧ url_Parse (Library := exampleLibrary)
       (baseURL +:+ "/" +:+ "pkl-linux-amd64") = None)
  ∧ requests (calls (Download (lib := exampleLibrary) testPath) d) =
      [releaseRequest;
       mkRequest "GET" (baseURL +:+ "/" +:+ "pkl-linux-amd64") ∅].
Proof.
  intros index d c.
  split.
  { split; [by vm_compute|]. split; [by vm_compute|]. split; [reflexivity|].
    split; [by vm_compute|]. split; [by vm_compute|]. split; [reflexivity|].
    split; [exact linux_amd64_in_table|]. split; [reflexivity|].
    split; [reflexivity|]. by vm_compute. }
  apply (Download_requests_without_tag (lib := exampleLibrary) testPath d index c
           (list_byte_of_string "{}") [] "linux" "amd64" "pkl-linux-amd64").
  - by vm_compute.
  - by vm_compute.
  - reflexivity.
  - by vm_compute.
  - by vm_compute.
  - reflexivity.
  - exact linux_amd64_in_table.
  - reflexivity.
  - reflexivity.
  - by vm_compute.
Defined.

(** The disk is full after four bytes. *)
Lemma Download_failure_leaves_prefix_witness :
  let fs0 := refusingFs None (Some (4%nat, errorString "no space left on device")) None in
  let c := testClient (inr artifactResponse) in
  let d := testDownloader c fs0 in
  let e := wrapError "failed to write file: " (errorString "no space left on device") in
  (fetched (lib := exampleLibrary) testPath d "0.28.2" linuxURL linuxRequest
     artifactResponse (atArtifact c fs0)
   ∧ (Download (lib := exampleLibrary) testPath d).1 = inl e)
  ∧ (fs (Download (lib := exampleLibrary) testPath d).2 = fs d
     ∨ ∃ q,
         q `prefix_of` content (Body artifactResponse)
         ∧ files (fs (Download (lib := exampleLibrary) testPath d).2) =
             <[testPath := mkFile q (createMode (fs d) (files (fs d) !! testPath))]>
               (files (fs d))).
Proof.
  intros fs0 c d e.
  assert ((Download (lib := exampleLibrary) testPath d).1 = inl e) as Hrun
    by (by vm_compute).
  split; [split; [apply fetched_test|exact Hrun]|].
  exact (Download_failure_leaves_prefix (lib := exampleLibrary) testPath d
           "0.28.2" linuxURL linuxRequest artifactResponse (atArtifact c fs0) e
           (fetched_test artifactResponse fs0) Hrun).
Defined.

Lemma linux_amd64_supported : supported ("linux", "amd64").
Proof.
  unfold supported, compatibilityTable. simpl.
  do 2 apply list_elem_of_further. apply list_elem_of_here.
Qed.

(** Two downloaders on linux/amd64. *)
Lemma getPklDownloadURL_injective_witness :
  let d := testDownloader (testClient (inr artifactResponse)) NewMemMapFs in
  let d' := testDownloader [] (OsFs 18 ∅) in
  (supported (GOOS (runtime d), GOARCH (runtime d))
   ∧ supported (GOOS (runtime d'), GOARCH (runtime d'))
   ∧ (getPklDownloadURL "0.28.2" d).1 = inr linuxURL
   ∧ (getPklDownloadURL "0.28.2" d').1 = inr linuxURL)
  ∧ GOOS (runtime d) = GOOS (runtime d') ∧ GOARCH (runtime d) = GOARCH (runtime d').
Proof.
  intros d d'.
  split.
  { split; [exact linux_amd64_supported|]. split; [exact linux_amd64_supported|].
    split; by vm_compute. }
  apply (getPklDownloadURL_injective d d' "0.28.2" linuxURL).
  - exact linux_amd64_supported.
  - exact linux_amd64_supported.
  - by vm_compute.
  - by vm_compute.
Defined.

(** * The schema and the check for the binary on examples *)

(** The module evaluates and the close of the evaluator fails. *)
Lemma LoadFromPath_results_witness :
  let ev := mkTestEvaluator (Some "pbl", None) (Some (errorString "broken pipe")) in
  (EvaluateModule ev (FileSource ["test.pkl"]) (mkSchema None)
     = ((mkSchema (Some "pbl"), None), ev)
   ∧ Close ev = (Some (errorString "broken pipe"), ev))
  ∧ (LoadFromPath (inr ev) "test.pkl").1
    = (Some (mkSchema (Some "pbl")), Some (errorString "broken pipe")).
Proof.
  intros ev.
  split; [by split|].
  apply (proj2 (proj2 (LoadFromPath_results (inr ev) "test.pkl"))).
  by exists ev, ev, ev.
Defined.


(** [checkPklBinary] on linux/amd64 with the network of the test suite. *)
Local Abbreviation testCheck r p :=
  (checkPklBinary (lib := exampleLibrary) (build := linuxBuild) []
     (λ _, testClient r) p).

(** The user declines: nothing is touched. *)
Lemma checkPklBinary_without_consent_witness :
  let p := testProcess declining NewMemMapFs in
  (∀ e h, exec_LookPath (hostState p) "pkl" = inl e →
          form_Run (hostState p) ≠ (inr true, h))
  ∧ osfs (testCheck (inr artifactResponse) p).2 = osfs p
  ∧ (mainCalls (testCheck (inr artifactResponse) p).2
     = mainCalls p ++ [Exec_LookPath "pkl"]
     ∨ mainCalls (testCheck (inr artifactResponse) p).2
       = mainCalls p ++ [Exec_LookPath "pkl"; Form_Run])
  ∧ ∀ path,
      (testCheck (inr artifactResponse) p).1 = inr path →
      exec_LookPath (hostState p) "pkl" = inr path.
Proof.
  intros p.
  assert (∀ (e : error) (h : TestHost),
            exec_LookPath (hostState p) "pkl" = inl e →
            form_Run (hostState p) ≠ (inr true, h)) as Hno
    by (intros e h _; vm_compute; discriminate).
  split; [exact Hno|].
  exact (checkPklBinary_without_consent (lib := exampleLibrary) (build := linuxBuild)
           [] (λ _, testClient (inr artifactResponse)) p Hno).
Defined.



(** The build for windows/amd64. *)
Lemma binaryName_matches_artifact_witness :
  let build := {| build_GOOS := "windows"; build_GOARCH := "amd64" |} in
  downloadMap !! platformKey ("windows", "amd64") = Some "pkl-windows-amd64.exe"
  ∧ hasSuffix (binaryName (build := build)) ".exe"
    = hasSuffix "pkl-windows-amd64.exe" ".exe".
Proof.
  intros build.
  assert (downloadMap !! platformKey (build_GOOS, build_GOARCH)
          = Some "pkl-windows-amd64.exe") as Hkey by (by vm_compute).
  split; [exact Hkey|].
  exact (binaryName_matches_artifact (build := build) "pkl-windows-amd64.exe" Hkey).
Defined.

(** A build for plan9: the directory is made and the index is asked. *)
Lemma checkPklBinary_unsupported_platform_witness :
  let p := testProcess consenting NewMemMapFs in
  let run := checkPklBinary (lib := exampleLibrary) (build := plan9Build) []
               (λ _, testClient (inr artifactResponse)) p in
  let binDir := "/home/user/.local/bin" in
  (¬ supported ("plan9", "amd64")
   ∧ (∃ e, exec_LookPath (hostState p) "pkl" = inl e)
   ∧ form_Run (hostState p) = (inr true, consenting)
   ∧ os_UserHomeDir consenting = inr "/home/user"
   ∧ (os_MkdirAll (H := TestHost) binDir perm0755 (osfs p)).1 = None
   ∧ url_Parse (Library := exampleLibrary) releaseURL = None)
  ∧ ∃ err evs,
      run.1 = inl err
      ∧ osfs run.2 = (os_MkdirAll (H := TestHost) binDir perm0755 (osfs p)).2
      ∧ mainCalls run.2 =
          mainCalls p
          ++ [Exec_LookPath "pkl"; Form_Run; Os_UserHomeDir; Os_MkdirAll binDir perm0755]
          ++ (Downloader_call <$> evs)
      ∧ requests evs = [releaseRequest]
      ∧ ((∃ cause,
            Error (lib := exampleLibrary) err
            = "failed to download pkl: " +:+ "failed to get latest version: " +:+ cause)
         ∨ Error (lib := exampleLibrary) err
           = "failed to download pkl: " +:+ "failed to get download URL: "
             +:+ "unsupported OS/architecture combination: "
             +:+ "plan9" +:+ "/" +:+ "amd64").
Proof.
  intros p run binDir.
  assert (¬ supported ("plan9", "amd64")) as Hp.
  { unfold supported, compatibilityTable. simpl.
    rewrite !elem_of_cons, elem_of_nil. intros [?|[?|[?|[?|[?|[]]]]]]; discriminate. }
  split.
  { split; [exact Hp|]. split; [by eexists|]. by repeat split. }
  exact (checkPklBinary_unsupported_platform (lib := exampleLibrary)
           (build := plan9Build) [] (λ _, testClient (inr artifactResponse)) p
           (errorString "exec: pkl: executable file not found in $PATH")
           consenting "/home/user" Hp eq_refl eq_refl eq_refl eq_refl eq_refl).
Defined.
